(** * ss-bot: the disaster-report dialog and its submission path

    A shallow embedding of
    - [telegram_bot.py]: the per-user dialog ([DisasterReportBot]),
    - [app.py]: the [POST /api/reports] route ([create_report]),
    - [supabase_client.py]: [DisasterReportService.create_report] and
      [EmergencyNotificationService.trigger_emergency_alert],
    followed by the properties of the dialog and of the submission path.

    Python dictionaries are finite maps from strings to dynamically typed
    values; the bot's [user_sessions] is a finite map from user ids to
    sessions.  Handlers are functions from the state before an update to the
    state after it, the replies sent to the chat and the trace of calls made to
    the collaborators (HTTP backend, Supabase tables, alert service). *)

From Stdlib Require Import ZArith String Ascii Bool List PrimFloat.
From stdpp Require Import gmap strings list fin_maps pretty.
Import ListNotations.

Local Open Scope Z_scope.
Local Open Scope string_scope.
Local Open Scope list_scope.
Local Open Scope stdpp_scope.

Set Warnings "-register-all,-inexact-float".

(** ** Python values, exceptions and the string methods the code calls *)
Module Py.

(** A value as it travels in a dictionary or a JSON body. *)
Inductive value :=
| VNone
| VBool (b : bool)
| VInt (n : Z)
| VFloat (f : float)
| VStr (s : string)
| VList (l : list value)
| VDict (d : gmap string value).

(** The exceptions that the modelled code raises or catches.  [ApiError c]
    is [Exception(f"API Error: {c}")] of [submit_report]; [ExternalError]
    is whatever a collaborator (network, database) raises. *)
Inductive exn :=
| KeyError (key : string)
| TypeError
| ValueError
| OverflowError
| AttributeError
| ApiError (status_code : Z)
| ExternalError (msg : string).

(** The text of an ['error'] entry: either [str(e)] or a literal. *)
Inductive error :=
| StrOfExn (e : exn)
| Msg (s : string).

(** A computation that returns or raises. *)
Definition result (A : Type) : Type := (exn + A)%type.
Definition ok {A} (a : A) : result A := inr a.
Definition raise {A} (e : exn) : result A := inl e.

(** [d[k]] *)
Definition getitem (d : gmap string value) (k : string) : result value :=
  match d !! k with
  | Some v => ok v
  | None => raise (KeyError k)
  end.

(** [d.get(k, dflt)] *)
Definition get (d : gmap string value) (k : string) (dflt : value) : value :=
  match d !! k with
  | Some v => v
  | None => dflt
  end.

(** [k in d] *)
Definition contains (d : gmap string value) (k : string) : bool :=
  match d !! k with
  | Some _ => true
  | None => false
  end.

(** [v == s] for a string literal [s]: only a string equals a string. *)
Definition eq_str (v : value) (s : string) : bool :=
  match v with
  | VStr t => String.eqb t s
  | _ => false
  end.

(** [s.startswith(p)] *)
Definition startswith (s p : string) : bool := String.prefix p s.

(** [s.replace(old, new)] for a non-empty [old] (both call sites pass a
    literal): every occurrence of [old], scanning from the left without
    overlap, is replaced.  [skip] counts the characters of an occurrence
    that are still to be dropped. *)
Fixpoint replace_from (old new : string) (skip : nat) (s : string) : string :=
  match s with
  | EmptyString => EmptyString
  | String c s' =>
      match skip with
      | S k => replace_from old new k s'
      | O =>
          if String.prefix old s
          then String.append new (replace_from old new (String.length old - 1) s')
          else String c (replace_from old new 0 s')
      end
  end.

Definition replace (s old new : string) : string := replace_from old new 0 s.

(** The parts of the Python runtime library that the code calls and that
    are not modelled: they are inputs of the model. *)
Record pylib := {
  (** [str(v)], also used by f-strings *)
  py_str : value -> string;
  (** [float(s)] for a string [s]; [None] is [ValueError] *)
  float_of_str : string -> option float;
  (** [float(n)] for an integer [n]; [None] is [OverflowError] *)
  float_of_int : Z -> option float;
  (** [json.dumps(v)] *)
  json_dumps : value -> string
}.

(** [float(v)] *)
Definition py_float (L : pylib) (v : value) : result float :=
  match v with
  | VFloat f => ok f
  | VInt n =>
      match float_of_int L n with
      | Some f => ok f
      | None => raise OverflowError
      end
  | VBool b => ok (if b then 1%float else 0%float)
  | VStr s =>
      match float_of_str L s with
      | Some f => ok f
      | None => raise ValueError
      end
  | VNone | VList _ | VDict _ => raise TypeError
  end.

End Py.
Import Py.

Notation "'let?' x ':=' e 'in' k" :=
  (match e with inl err => inl err | inr x => k end)
  (at level 10, x name, e at level 100, k at level 200, only parsing).

(** ** The collaborators *)

(** The row that [DisasterReportService.create_report] inserts into the
    [disaster_reports] table ([db_data]). *)
Record db_row := {
  id : string;
  user_id : string;
  username : value;
  disaster_type : value;
  severity : value;
  latitude : float;
  longitude : float;
  description : value;
  photos : string;
  status : string;
  source : string;
  created_at : string;
  updated_at : string
}.

(** The row that [trigger_emergency_alert] inserts into the
    [emergency_alerts] table ([alert_data]). *)
Record alert_row := {
  report_id : value;
  alert_type : string;
  alert_severity : value;
  alert_location : string;
  alert_disaster_type : value;
  alert_description : value;
  alert_status : string;
  alert_created_at : string
}.

(** What [supabase.table(..).insert(..).execute()] does: it raises, or it
    returns a result whose [data] is a list of rows (an empty list stands for
    every falsy [data]). *)
Inductive insert_result :=
| InsertRaises (e : exn)
| InsertData (rows : list (gmap string value)).

(** What [requests.get(f"{BACKEND_API_URL}/reports/user/{user_id}")] gives. *)
Inductive get_result :=
| GetRaises (e : exn)
| GetResponse (status_code : Z) (reports : list (gmap string value)).

(** Everything outside the modelled code, as seen during one update. *)
Record world := {
  lib : pylib;
  (** [str(uuid.uuid4())[:8].upper()] *)
  uuid4_id : string;
  (** [datetime.now().isoformat()], by the position of the call in the
      function that makes it *)
  now_iso : nat -> string;
  (** the [disaster_reports] table *)
  reports_insert : db_row -> insert_result;
  (** the [emergency_alerts] table *)
  alerts_insert : alert_row -> insert_result;
  (** [requests.post] to the backend: [Some e] when it raises [e] before
      any response arrives, [None] when the request reaches [app.py] *)
  post_raises : option exn;
  (** the backend route that lists the reports of a user *)
  user_reports_get : Z -> get_result;
  (** [context.bot.get_file(file_id).file_path]; [None] when it raises *)
  get_file : string -> option string
}.

(** The calls made to collaborators, in the order they are made. *)
Inductive effect :=
| EHttpPost (json : gmap string value)
| EHttpGet (user_id : Z)
| EInsertReport (row : db_row)
| ECallTrigger (report_data : gmap string value)
| EInsertAlert (row : alert_row)
| EPrint (line : string)
| EPrintAlertError (e : exn)
| ELoggerError (e : exn).

(** ** supabase_client.py *)
Module SupabaseClient.

(** The dictionary returned by [DisasterReportService.create_report]:
    [{'success': True, 'id': .., 'data': ..}] or
    [{'success': False, 'error': ..}]. *)
Inductive create_result :=
| Success (id : string) (data : gmap string value)
| Failure (err : error).

(** The dictionary literal [db_data], its entries evaluated in order. *)
Definition db_data (w : world) (report_id : string)
    (report_data : gmap string value) : result db_row :=
  let? uid := getitem report_data "user_id" in
  let? dtype := getitem report_data "disaster_type" in
  let? sev := getitem report_data "severity" in
  let? lat_v := getitem report_data "latitude" in
  let? lat := py_float (lib w) lat_v in
  let? lng_v := getitem report_data "longitude" in
  let? lng := py_float (lib w) lng_v in
  ok {| id := report_id;
        user_id := py_str (lib w) uid;
        username := get report_data "username" (VStr "Anonymous");
        disaster_type := dtype;
        severity := sev;
        latitude := lat;
        longitude := lng;
        description := get report_data "description" (VStr "");
        photos := json_dumps (lib w) (get report_data "photos" (VList []));
        status := "Pending";
        source := "Telegram Bot";
        created_at := now_iso w 0;
        updated_at := now_iso w 1 |}.

(** [DisasterReportService.create_report] *)
Definition create_report (w : world) (report_data : gmap string value)
    : create_result * list effect :=
  let report_id := uuid4_id w in
  match db_data w report_id report_data with
  | inl e => (Failure (StrOfExn e), [])
  | inr row =>
      match reports_insert w row with
      | InsertRaises e => (Failure (StrOfExn e), [EInsertReport row])
      | InsertData (stored :: _) => (Success report_id stored, [EInsertReport row])
      | InsertData [] => (Failure (Msg "Failed to create report"), [EInsertReport row])
      end
  end.

(** The dictionary returned by [trigger_emergency_alert]. *)
Inductive alert_result :=
| AlertSuccess (alert_id : value)
| AlertFailure (err : error).

(** The dictionary literal [alert_data]. *)
Definition alert_data (w : world) (report_data : gmap string value)
    : result alert_row :=
  let? rid := getitem report_data "id" in
  let? sev := getitem report_data "severity" in
  let? lat := getitem report_data "latitude" in
  let? lng := getitem report_data "longitude" in
  let? dtype := getitem report_data "disaster_type" in
  ok {| report_id := rid;
        alert_type := "Critical Disaster Report";
        alert_severity := sev;
        alert_location :=
          String.append (py_str (lib w) lat)
            (String.append ", " (py_str (lib w) lng));
        alert_disaster_type := dtype;
        alert_description := get report_data "description" (VStr "");
        alert_status := "Active";
        alert_created_at := now_iso w 0 |}.

(** The five [print] calls that follow the insertion. *)
Definition alert_banner (w : world) (row : alert_row) : list effect :=
  [ EPrint "🚨 EMERGENCY ALERT TRIGGERED 🚨";
    EPrint (String.append "Report ID: " (py_str (lib w) (report_id row)));
    EPrint (String.append "Type: " (py_str (lib w) (alert_disaster_type row)));
    EPrint (String.append "Severity: " (py_str (lib w) (alert_severity row)));
    EPrint (String.append "Location: " (alert_location row)) ].

(** The [except] branch: [print(f"Error triggering emergency alert: {e}")],
    and the error is returned, not raised. *)
Definition alert_failed (e : exn) : alert_result * list effect :=
  (AlertFailure (StrOfExn e), [EPrintAlertError e]).

(** [EmergencyNotificationService.trigger_emergency_alert] *)
Definition trigger_emergency_alert (w : world) (report_data : gmap string value)
    : alert_result * list effect :=
  match alert_data w report_data with
  | inl e => alert_failed e
  | inr row =>
      match alerts_insert w row with
      | InsertRaises e =>
          let '(r, eff) := alert_failed e in (r, EInsertAlert row :: eff)
      | InsertData [] =>
          (AlertSuccess VNone, EInsertAlert row :: alert_banner w row)
      | InsertData (stored :: _) =>
          match getitem stored "id" with
          | inr aid => (AlertSuccess aid, EInsertAlert row :: alert_banner w row)
          | inl e =>
              let '(r, eff) := alert_failed e in
              (r, EInsertAlert row :: alert_banner w row ++ eff)
          end
      end
  end.

End SupabaseClient.

(** ** app.py *)
Module App.

(** The JSON body of a response of [POST /api/reports]. *)
Inductive body :=
| JsonError (err : error)
| JsonCreated (id : string) (data : gmap string value).

Definition response : Type := (Z * body)%type.

Definition required_fields : list string :=
  ["user_id"; "disaster_type"; "severity"; "latitude"; "longitude"].

(** The first field of [required_fields] that is not a key of [data]: the
    loop returns at the first one it meets. *)
Definition missing_field (data : gmap string value) : option string :=
  List.find (fun field => negb (contains data field)) required_fields.

(** [create_report], for a request whose JSON body is the object [data]. *)
Definition create_report (w : world) (data : gmap string value)
    : response * list effect :=
  match missing_field data with
  | Some field =>
      ((400, JsonError (Msg (String.append "Missing required field: " field))), [])
  | None =>
      let '(result, eff) := SupabaseClient.create_report w data in
      match result with
      | SupabaseClient.Success rid report_data =>
          match getitem data "severity" with
          | inr sev =>
              let alert :=
                if eq_str sev "Critical"
                then ECallTrigger report_data
                     :: snd (SupabaseClient.trigger_emergency_alert w report_data)
                else [] in
              ((201, JsonCreated rid report_data), eff ++ alert)
          | inl e => ((500, JsonError (StrOfExn e)), eff)
          end
      | SupabaseClient.Failure err => ((500, JsonError err), eff)
      end
  end.

End App.

(** ** telegram_bot.py *)
Module TelegramBot.

Definition DISASTER_TYPES : list string :=
  ["Earthquake"; "Flood"; "Fire"; "Landslide"; "Cyclone";
   "Accident"; "Medical Emergency"; "Other"].

Definition SEVERITY_LEVELS : list string := ["Low"; "Medium"; "High"; "Critical"].

(** The values that the code assigns to [session['step']]. *)
Inductive step_name :=
| step_disaster_type
| step_severity
| step_location
| step_description
| step_photos
| step_emergency_location.

#[global] Instance step_name_eq_dec : EqDecision step_name.
Proof. solve_decision. Defined.

(** An entry of [self.user_sessions]. *)
Record session := {
  step : step_name;
  report_data : gmap string value
}.

(** [update.effective_user] *)
Record user := {
  tg_id : Z;
  tg_username : option string;
  tg_first_name : string
}.

Definition username_value (u : user) : value :=
  match tg_username u with
  | Some name => VStr name
  | None => VNone
  end.

(** An [InlineKeyboardButton]. *)
Record button := {
  button_text : string;
  callback_data : string
}.

(** The loop that lays the buttons out two per row, with [pfx] before
    each item in the callback data. *)
Fixpoint inline_rows (pfx : string) (items : list string) : list (list button) :=
  let btn item :=
    {| button_text := item; callback_data := String.append pfx item |} in
  match items with
  | [] => []
  | [a] => [[btn a]]
  | a :: b :: rest => [btn a; btn b] :: inline_rows pfx rest
  end.

(** The messages the bot sends, by template, with the values that the
    template interpolates. *)
Inductive reply :=
| Welcome (first_name : string)
| Help
| AskDisasterType (keyboard : list (list button))
| EmergencyAskLocation
| SessionExpired
| AskSeverity (disaster_type : string) (keyboard : list (list button))
| AskLocation (disaster_type : value) (severity : string)
| ClickToShare
| LocationReceived
| Greeting
| AskPhotos
| PhotoReceived (total : nat)
| Submitted (report_id disaster_type severity : value) (notified : bool)
| SubmitError (e : exn)
| NoReports
| RecentReports (reports : list (gmap string value))
| UnableToFetch
| ErrorFetching.

(** What a handler leaves behind: [self.user_sessions], the messages
    sent, the calls made to collaborators. *)
Record outcome := {
  user_sessions : gmap Z session;
  replies : list reply;
  effects : list effect
}.

Definition silent (sessions : gmap Z session) : outcome :=
  {| user_sessions := sessions; replies := []; effects := [] |}.

Definition say (sessions : gmap Z session) (msgs : list reply) : outcome :=
  {| user_sessions := sessions; replies := msgs; effects := [] |}.

Definition start (u : user) (sessions : gmap Z session) : outcome :=
  say sessions [Welcome (tg_first_name u)].

Definition help_command (sessions : gmap Z session) : outcome :=
  say sessions [Help].

Definition start_report (w : world) (u : user) (sessions : gmap Z session)
    : outcome :=
  let fresh :=
    {| step := step_disaster_type;
       report_data :=
         <["timestamp" := VStr (now_iso w 0)]>
           (<["username" := username_value u]>
              (<["user_id" := VInt (tg_id u)]> ∅)) |} in
  say (<[tg_id u := fresh]> sessions)
      [AskDisasterType (inline_rows "type_" DISASTER_TYPES)].

Definition emergency_report (w : world) (u : user) (sessions : gmap Z session)
    : outcome :=
  let fresh :=
    {| step := step_emergency_location;
       report_data :=
         <["timestamp" := VStr (now_iso w 0)]>
           (<["severity" := VStr "Critical"]>
              (<["disaster_type" := VStr "Emergency"]>
                 (<["username" := username_value u]>
                    (<["user_id" := VInt (tg_id u)]> ∅)))) |} in
  say (<[tg_id u := fresh]> sessions) [EmergencyAskLocation].

Definition button_callback (u : user) (data : string)
    (sessions : gmap Z session) : outcome :=
  match sessions !! tg_id u with
  | None => say sessions [SessionExpired]
  | Some sess =>
      if startswith data "type_" then
        let disaster_type := replace data "type_" "" in
        let sess' :=
          {| step := step_severity;
             report_data :=
               <["disaster_type" := VStr disaster_type]> (report_data sess) |} in
        say (<[tg_id u := sess']> sessions)
            [AskSeverity disaster_type (inline_rows "severity_" SEVERITY_LEVELS)]
      else if startswith data "severity_" then
        let severity := replace data "severity_" "" in
        let sess' :=
          {| step := step_location;
             report_data :=
               <["severity" := VStr severity]> (report_data sess) |} in
        (* the prompt interpolates session['report_data']['disaster_type']:
           without that key the handler raises after the session is
           updated, and nothing is sent *)
        say (<[tg_id u := sess']> sessions)
            match report_data sess' !! "disaster_type" with
            | Some disaster_type => [AskLocation disaster_type severity; ClickToShare]
            | None => []
            end
      else silent sessions
  end.

(** [requests.post(f"{BACKEND_API_URL}/reports", json=report_data)]: the
    request either fails on the way or is served by [app.py]. *)
Inductive post_result :=
| PostRaises (e : exn)
| PostResponse (r : App.response).

Definition requests_post (w : world) (json : gmap string value)
    : post_result * list effect :=
  match post_raises w with
  | Some e => (PostRaises e, [EHttpPost json])
  | None =>
      let '(r, eff) := App.create_report w json in
      (PostResponse r, EHttpPost json :: eff)
  end.

Definition submit_report (w : world) (u : user) (emergency : bool)
    (sessions : gmap Z session) : outcome :=
  match sessions !! tg_id u with
  | None => silent sessions
  | Some sess =>
      let report_data := report_data sess in
      let '(posted, eff) := requests_post w report_data in
      (* finally: the session is cleared on every path *)
      let cleared := delete (tg_id u) sessions in
      let failed e :=
        {| user_sessions := cleared;
           replies := [SubmitError e];
           effects := eff ++ [ELoggerError e] |} in
      match posted with
      | PostRaises e => failed e
      | PostResponse (status_code, body) =>
          if Z.eqb status_code 201 then
            let report_id :=
              match body with
              | App.JsonCreated rid _ => VStr rid
              | App.JsonError _ => VStr "Unknown"
              end in
            {| user_sessions := cleared;
               replies :=
                 [Submitted report_id
                    (get report_data "disaster_type" (VStr "N/A"))
                    (get report_data "severity" (VStr "N/A"))
                    (emergency || eq_str (get report_data "severity" VNone) "Critical")];
               effects := eff |}
          else failed (ApiError status_code)
      end
  end.

Definition handle_location (w : world) (u : user) (latitude longitude : float)
    (sessions : gmap Z session) : outcome :=
  match sessions !! tg_id u with
  | None => say sessions [SessionExpired]
  | Some sess =>
      let sess' :=
        {| step := step_description;
           report_data :=
             <["longitude" := VFloat longitude]>
               (<["latitude" := VFloat latitude]> (report_data sess)) |} in
      let sessions' := <[tg_id u := sess']> sessions in
      (* the test reads session['step'] after the assignment above *)
      if decide (step sess' = step_emergency_location)
      then submit_report w u true sessions'
      else say sessions' [LocationReceived]
  end.

Definition show_user_reports (w : world) (u : user) (sessions : gmap Z session)
    : outcome :=
  (* requests.get(f"{BACKEND_API_URL}/reports/user/{user_id}") *)
  let asked := EHttpGet (tg_id u) in
  match user_reports_get w (tg_id u) with
  | GetRaises e =>
      {| user_sessions := sessions; replies := [ErrorFetching];
         effects := [asked; ELoggerError e] |}
  | GetResponse status_code reports =>
      {| user_sessions := sessions;
         replies :=
           if Z.eqb status_code 200 then
             match reports with
             | [] => [NoReports]
             | _ => [RecentReports (firstn 5 reports)]
             end
           else [UnableToFetch];
         effects := [asked] |}
  end.

Definition handle_message (w : world) (u : user) (text : string)
    (sessions : gmap Z session) : outcome :=
  if String.eqb text "🚨 Report Disaster" then start_report w u sessions
  else if String.eqb text "🆘 Emergency" then emergency_report w u sessions
  else if String.eqb text "ℹ️ Help" then help_command sessions
  else if String.eqb text "📊 My Reports" then show_user_reports w u sessions
  else
    match sessions !! tg_id u with
    | None => say sessions [Greeting]
    | Some sess =>
        if decide (step sess = step_description) then
          let description :=
            if String.eqb text "Skip Description"
            then "No description provided" else text in
          let sess' :=
            {| step := step_photos;
               report_data :=
                 <["description" := VStr description]> (report_data sess) |} in
          say (<[tg_id u := sess']> sessions) [AskPhotos]
        else if String.eqb text "Submit Report" then
          submit_report w u false sessions
        else silent sessions
    end.

(** The entry [{'file_id': .., 'file_path': ..}] of the photo list. *)
Definition photo_entry (file_id file_path : string) : value :=
  VDict (<["file_path" := VStr file_path]> (<["file_id" := VStr file_id]> ∅)).

(** [photo] lists the file ids of the sizes of one picture, the largest
    last.  An empty list, a failing [get_file] and a ['photos'] entry that
    is not a list all raise before anything is written. *)
Definition handle_photo (w : world) (u : user) (photo : list string)
    (sessions : gmap Z session) : outcome :=
  match sessions !! tg_id u with
  | None => silent sessions
  | Some sess =>
      if decide (step sess = step_photos) then
        match last photo with
        | None => silent sessions
        | Some file_id =>
            match get_file w file_id with
            | None => silent sessions
            | Some file_path =>
                let stored :=
                  match report_data sess !! "photos" with
                  | None => Some []
                  | Some (VList l) => Some l
                  | Some _ => None
                  end in
                match stored with
                | None => silent sessions
                | Some l =>
                    let photos := l ++ [photo_entry file_id file_path] in
                    let sess' :=
                      {| step := step sess;
                         report_data :=
                           <["photos" := VList photos]> (report_data sess) |} in
                    say (<[tg_id u := sess']> sessions)
                        [PhotoReceived (length photos)]
                end
            end
        end
      else silent sessions
  end.

(** An update, as the handlers registered in [main] tell them apart.
    [Text] is a text message that is not a command. *)
Inductive update :=
| CommandStart
| CommandReport
| CommandEmergency
| CommandHelp
| CommandStatus
| CallbackQuery (data : string)
| Location (latitude longitude : float)
| Photo (photo : list string)
| Text (text : string).

(** The handlers of [main]. *)
Definition handle (w : world) (u : user) (upd : update)
    (sessions : gmap Z session) : outcome :=
  match upd with
  | CommandStart => start u sessions
  | CommandReport => start_report w u sessions
  | CommandEmergency => emergency_report w u sessions
  | CommandHelp => help_command sessions
  | CommandStatus => show_user_reports w u sessions
  | CallbackQuery data => button_callback u data sessions
  | Location latitude longitude => handle_location w u latitude longitude sessions
  | Photo photo => handle_photo w u photo sessions
  | Text text => handle_message w u text sessions
  end.

(** The updates of one user handled one after the other. *)
Fixpoint run (w : world) (u : user) (upds : list update)
    (sessions : gmap Z session) : outcome :=
  match upds with
  | [] => silent sessions
  | upd :: rest =>
      let first := handle w u upd sessions in
      let then_ := run w u rest (user_sessions first) in
      {| user_sessions := user_sessions then_;
         replies := replies first ++ replies then_;
         effects := effects first ++ effects then_ |}
  end.

End TelegramBot.

(** ** The vocabulary of section 4.2 of the specification

    The code has no counterpart of these two checks; they are written from
    the specification, to state what it asks of a selection and of a
    coordinate pair. *)
Module Vocabulary.

(** The coordinate pair is in range: latitude in [-90, 90] and longitude
    in [-180, 180]. *)
Definition coordinates_in_range (latitude longitude : float) : bool :=
  (PrimFloat.leb (-90)%float latitude && PrimFloat.leb latitude 90%float)
  && (PrimFloat.leb (-180)%float longitude && PrimFloat.leb longitude 180%float).

(** The selection belongs to the enumeration. *)
Definition listed (item : string) (enumeration : list string) : bool :=
  existsb (String.eqb item) enumeration.

End Vocabulary.

(** ** Concrete worlds, users and sessions *)
Module Scenario.
Import TelegramBot.

(** A stand-in for the runtime library: [str] of an integer or of a
    string and [json.dumps] of the empty list are exact, every other text
    is a placeholder.  No scenario converts a string or an integer to a
    float. *)
Definition stand_in_lib : pylib :=
  {| py_str := fun v =>
       match v with
       | VInt n => pretty n
       | VStr s => s
       | _ => "?"
       end;
     float_of_str := fun _ => None;
     float_of_int := fun _ => None;
     json_dumps := fun v =>
       match v with
       | VList [] => "[]"
       | _ => "?"
       end |}.

(** The row a healthy [disaster_reports] table returns for an insertion. *)
Definition stored_row (row : db_row) : gmap string value :=
  <["status" := VStr (status row)]>
    (<["description" := description row]>
       (<["longitude" := VFloat (longitude row)]>
          (<["latitude" := VFloat (latitude row)]>
             (<["severity" := severity row]>
                (<["disaster_type" := disaster_type row]>
                   (<["user_id" := VStr (user_id row)]>
                      (<["id" := VStr (id row)]> ∅))))))).

(** Backend reachable, both tables accept insertions. *)
Definition world_up : world :=
  {| lib := stand_in_lib;
     uuid4_id := "1A2B3C4D";
     now_iso := fun _ => "2024-05-01T10:00:00";
     reports_insert := fun row => InsertData [stored_row row];
     alerts_insert := fun _ => InsertData [<["id" := VInt 1]> ∅];
     post_raises := None;
     user_reports_get := fun _ => GetResponse 200 [];
     get_file := fun file_id => Some (String.append "photos/" file_id) |}.

(** The [disaster_reports] table refuses insertions. *)
Definition world_store_down : world :=
  {| lib := stand_in_lib;
     uuid4_id := "1A2B3C4D";
     now_iso := fun _ => "2024-05-01T10:00:00";
     reports_insert := fun _ => InsertRaises (ExternalError "connection refused");
     alerts_insert := fun _ => InsertData [<["id" := VInt 1]> ∅];
     post_raises := None;
     user_reports_get := fun _ => GetResponse 200 [];
     get_file := fun file_id => Some (String.append "photos/" file_id) |}.

(** The [emergency_alerts] table refuses insertions. *)
Definition world_alert_down : world :=
  {| lib := stand_in_lib;
     uuid4_id := "1A2B3C4D";
     now_iso := fun _ => "2024-05-01T10:00:00";
     reports_insert := fun row => InsertData [stored_row row];
     alerts_insert := fun _ => InsertRaises (ExternalError "connection refused");
     post_raises := None;
     user_reports_get := fun _ => GetResponse 200 [];
     get_file := fun file_id => Some (String.append "photos/" file_id) |}.

Definition alice : user :=
  {| tg_id := 7; tg_username := Some "alice"; tg_first_name := "Alice" |}.

(** The draft right after [/report]. *)
Definition draft_new : gmap string value :=
  <["timestamp" := VStr "2024-05-01T10:00:00"]>
    (<["username" := VStr "alice"]> (<["user_id" := VInt 7]> ∅)).

(** The draft once type and severity are selected. *)
Definition draft_selected (dtype sev : string) : gmap string value :=
  <["severity" := VStr sev]> (<["disaster_type" := VStr dtype]> draft_new).

(** The draft once the coordinates are in as well. *)
Definition draft_located (dtype sev : string) : gmap string value :=
  <["longitude" := VFloat 77.6%float]>
    (<["latitude" := VFloat 12.9%float]> (draft_selected dtype sev)).

(** The complete draft of the specification's example. *)
Definition draft_complete : gmap string value :=
  <["description" := VStr "street flooded"]> (draft_located "Flood" "High").

Definition at_step (st : step_name) (draft : gmap string value)
    : gmap Z session :=
  <[7 := {| step := st; report_data := draft |}]> ∅.

End Scenario.

(** ** The inputs of the standard path *)
Module StandardPath.
Import TelegramBot.

(** One photo message: the file ids of the smaller sizes, then the file id
    and the path of the largest. *)
Definition photo_update (picture : list string * string * string) : update :=
  Photo (fst (fst picture) ++ [snd (fst picture)]).

Definition picture_entry (picture : list string * string * string) : value :=
  photo_entry (snd (fst picture)) (snd picture).

Definition picture_fetched (w : world) (picture : list string * string * string) : Prop :=
  get_file w (snd (fst picture)) = Some (snd picture).

(** The texts of the reply keyboard that [handle_message] treats as
    commands before it looks at the session. *)
Definition menu_texts : list string :=
  ["🚨 Report Disaster"; "🆘 Emergency"; "ℹ️ Help"; "📊 My Reports"].

(** What the description step stores for a text. *)
Definition described (text : string) : string :=
  if String.eqb text "Skip Description" then "No description provided" else text.

(** The updates of a report that follows the standard path. *)
Definition updates (dtype sev : string) (lat lng : float) (text : string)
    (pictures : list (list string * string * string)) : list update :=
  [CommandReport;
   CallbackQuery (String.append "type_" dtype);
   CallbackQuery (String.append "severity_" sev);
   Location lat lng;
   Text text]
  ++ map photo_update pictures ++ [Text "Submit Report"].

End StandardPath.

(** ** The read and update side of the [disaster_reports] table *)

(** A [select('*')] on the table with the calls chained on it. *)
Record query := {
  (** the [.eq(column, value)] calls, in order *)
  eqs : list (string * value);
  (** [.order('created_at', desc=True)] *)
  newest_first : bool;
  (** [.limit(n)] *)
  limit : option Z
}.

(** What [.execute()] gives for a query, and for
    [.update(changes).eq('id', report_id)]. *)
Record tables := {
  reports_select : query -> insert_result;
  reports_update : gmap string value -> string -> insert_result
}.

(** The calls made to the table by the reading routes, in order. *)
Inductive db_call :=
| DbSelect (q : query)
| DbUpdate (changes : gmap string value) (report_id : string).

(** Numeric code that is not modelled: [int(s)] for a text ([None] is
    [ValueError]), [==] between two numbers (booleans, integers, floats), and
    [_calculate_distance], whose body is floating-point trigonometry; it
    raises when a stored coordinate is not a number. *)
Record numerics := {
  int_of_str : string -> option Z;
  num_eq : value -> value -> bool;
  calculate_distance : float -> float -> value -> value -> result float
}.

(** ** supabase_client.py, the other methods of [DisasterReportService] *)
Module ReportQueries.

(** [{'success': True, 'data': [..]}] or [{'success': False, 'error': ..}] *)
Inductive list_result :=
| ListSuccess (data : list (gmap string value))
| ListFailure (err : error).

(** [{'success': True, 'data': {..}}] or [{'success': False, 'error': ..}] *)
Inductive row_result :=
| RowSuccess (data : gmap string value)
| RowFailure (err : error).

(** The shared ending of the methods that return every row. *)
Definition all_rows (r : insert_result) : list_result :=
  match r with
  | InsertRaises e => ListFailure (StrOfExn e)
  | InsertData rows => ListSuccess rows
  end.

(** The shared ending of the methods that return [result.data[0]]. *)
Definition first_row (r : insert_result) : row_result :=
  match r with
  | InsertRaises e => RowFailure (StrOfExn e)
  | InsertData (row :: _) => RowSuccess row
  | InsertData [] => RowFailure (Msg "Report not found")
  end.

(** [get_user_reports]; the route passes the user id as a text, of which
    [str] is the text itself. *)
Definition get_user_reports (t : tables) (user_id : string) (limit : Z)
    : list_result * list db_call :=
  let q := {| eqs := [("user_id", VStr user_id)];
              newest_first := true;
              limit := Some limit |} in
  (all_rows (reports_select t q), [DbSelect q]).

(** [get_report_by_id] *)
Definition get_report_by_id (t : tables) (report_id : string)
    : row_result * list db_call :=
  let q := {| eqs := [("id", VStr report_id)];
              newest_first := false;
              limit := None |} in
  (first_row (reports_select t q), [DbSelect q]).

(** [update_report_status] *)
Definition update_report_status (w : world) (t : tables) (report_id : string)
    (status : value) : row_result * list db_call :=
  let changes :=
    <["updated_at" := VStr (now_iso w 0)]> (<["status" := status]> ∅) in
  (first_row (reports_update t changes report_id), [DbUpdate changes report_id]).

(** The [.eq] calls that [get_all_reports] adds for its filters; an empty
    dictionary stands for [None] as well. *)
Definition filter_eqs (filters : gmap string value) : list (string * value) :=
  if Nat.eqb (size filters) 0 then []
  else
    (match filters !! "severity" with
     | Some v => [("severity", v)]
     | None => []
     end)
    ++ (match filters !! "disaster_type" with
        | Some v => [("disaster_type", v)]
        | None => []
        end)
    ++ (match filters !! "status" with
        | Some v => [("status", v)]
        | None => []
        end).

(** [get_all_reports] *)
Definition get_all_reports (t : tables) (filters : gmap string value) (limit : Z)
    : list_result * list db_call :=
  let q := {| eqs := filter_eqs filters;
              newest_first := true;
              limit := Some limit |} in
  (all_rows (reports_select t q), [DbSelect q]).

(** The loop of [get_reports_by_location]: the reports at most [radius_km]
    away, in the order of the table; the first report without a coordinate
    or with one that is not a number raises. *)
Fixpoint within_radius (N : numerics) (lat lng radius_km : float)
    (reports : list (gmap string value)) : result (list (gmap string value)) :=
  match reports with
  | [] => ok []
  | report :: rest =>
      let? rlat := getitem report "latitude" in
      let? rlng := getitem report "longitude" in
      let? d := calculate_distance N lat lng rlat rlng in
      let? kept := within_radius N lat lng radius_km rest in
      ok (if PrimFloat.leb d radius_km then report :: kept else kept)
  end.

(** [get_reports_by_location] *)
Definition get_reports_by_location (t : tables) (N : numerics)
    (lat lng radius_km : float) : list_result * list db_call :=
  let q := {| eqs := []; newest_first := false; limit := None |} in
  (match reports_select t q with
   | InsertRaises e => ListFailure (StrOfExn e)
   | InsertData rows =>
       match within_radius N lat lng radius_km rows with
       | inl e => ListFailure (StrOfExn e)
       | inr kept => ListSuccess kept
       end
   end,
   [DbSelect q]).

End ReportQueries.

(** ** app.py, the other routes *)
Module Routes.

(** The dictionary [stats] of [get_dashboard_stats]; the two inner
    dictionaries are kept in insertion order. *)
Record stats := {
  total_reports : nat;
  pending_reports : nat;
  resolved_reports : nat;
  critical_reports : nat;
  disaster_types : list (value * nat);
  severity_breakdown : list (string * nat);
  recent_reports : list (gmap string value)
}.

(** The JSON bodies of the routes. *)
Inductive body :=
| JsonError (err : error)
| JsonReports (data : list (gmap string value))
| JsonReport (data : gmap string value)
| JsonUpdated (data : gmap string value)
| JsonReportList (reports : list (gmap string value)) (count : nat)
| JsonNearby (reports : list (gmap string value)) (count : nat)
    (lat lng : float) (radius_km : value)
| JsonStats (s : stats).

Definition response : Type := (Z * body)%type.

(** [request.args.get(name, dflt, type=int)]: the default when the parameter
    is absent and when [int] refuses it. *)
Definition arg_int (N : numerics) (args : gmap string string) (name : string)
    (dflt : Z) : Z :=
  match args !! name with
  | None => dflt
  | Some s =>
      match int_of_str N s with
      | Some n => n
      | None => dflt
      end
  end.

(** [request.args.get(name, type=float)] *)
Definition arg_float (L : pylib) (args : gmap string string) (name : string)
    : option float :=
  match args !! name with
  | None => None
  | Some s => float_of_str L s
  end.

(** [get_user_reports] *)
Definition get_user_reports (t : tables) (N : numerics) (user_id : string)
    (args : gmap string string) : response * list db_call :=
  let limit := arg_int N args "limit" 10 in
  let '(result, calls) := ReportQueries.get_user_reports t user_id limit in
  match result with
  | ReportQueries.ListSuccess data => ((200, JsonReports data), calls)
  | ReportQueries.ListFailure err => ((500, JsonError err), calls)
  end.

(** [get_report] *)
Definition get_report (t : tables) (report_id : string) : response * list db_call :=
  let '(result, calls) := ReportQueries.get_report_by_id t report_id in
  match result with
  | ReportQueries.RowSuccess data => ((200, JsonReport data), calls)
  | ReportQueries.RowFailure err => ((404, JsonError err), calls)
  end.

(** The truth value of a Python value, as [not] and [if] take it. *)
Definition truthy (v : value) : bool :=
  match v with
  | VNone => false
  | VBool b => b
  | VInt n => negb (Z.eqb n 0)
  | VFloat f => negb (PrimFloat.eqb f 0%float)
  | VStr s => negb (String.eqb s "")
  | VList l => match l with [] => false | _ => true end
  | VDict d => negb (Nat.eqb (size d) 0)
  end.

Definition valid_statuses : list string :=
  ["Pending"; "In Progress"; "Resolved"; "Cancelled"].

(** [update_report_status], for a request whose JSON body is the object
    [data]. *)
Definition update_report_status (w : world) (t : tables) (report_id : string)
    (data : gmap string value) : response * list db_call :=
  let new_status := get data "status" VNone in
  if negb (truthy new_status) || negb (existsb (eq_str new_status) valid_statuses)
  then
    ((400,
      JsonError
        (Msg "Invalid status. Must be one of: ['Pending', 'In Progress', 'Resolved', 'Cancelled']")),
     [])
  else
    let '(result, calls) :=
      ReportQueries.update_report_status w t report_id new_status in
    match result with
    | ReportQueries.RowSuccess row => ((200, JsonUpdated row), calls)
    | ReportQueries.RowFailure err => ((404, JsonError err), calls)
    end.

(** The dictionary [filters] of [get_all_reports]: a parameter is a filter
    when it is present and not empty. *)
Definition filters_of (args : gmap string string) : gmap string value :=
  let add name (filters : gmap string value) :=
    match args !! name with
    | Some s => if negb (String.eqb s "") then <[name := VStr s]> filters else filters
    | None => filters
    end in
  add "status" (add "disaster_type" (add "severity" ∅)).

(** [get_all_reports] *)
Definition get_all_reports (t : tables) (N : numerics) (args : gmap string string)
    : response * list db_call :=
  let filters := filters_of args in
  let limit := arg_int N args "limit" 50 in
  let '(result, calls) := ReportQueries.get_all_reports t filters limit in
  match result with
  | ReportQueries.ListSuccess data => ((200, JsonReportList data (length data)), calls)
  | ReportQueries.ListFailure err => ((500, JsonError err), calls)
  end.

(** [get_nearby_reports].  The default radius is the integer 10: the loop
    compares with it as with 10.0, and the answer echoes it. *)
Definition get_nearby_reports (w : world) (t : tables) (N : numerics)
    (args : gmap string string) : response * list db_call :=
  let lat := arg_float (lib w) args "lat" in
  let lng := arg_float (lib w) args "lng" in
  let radius :=
    match arg_float (lib w) args "radius" with
    | Some r => (r, VFloat r)
    | None => (10%float, VInt 10)
    end in
  match lat, lng with
  | Some lat, Some lng =>
      let '(result, calls) :=
        ReportQueries.get_reports_by_location t N lat lng (fst radius) in
      match result with
      | ReportQueries.ListSuccess data =>
          ((200, JsonNearby data (length data) lat lng (snd radius)), calls)
      | ReportQueries.ListFailure err => ((500, JsonError err), calls)
      end
  | _, _ => ((400, JsonError (Msg "lat and lng parameters are required")), [])
  end.

(** [len([r for r in reports if r[key] == text])] *)
Fixpoint count_eq (key text : string) (reports : list (gmap string value))
    : result nat :=
  match reports with
  | [] => ok 0%nat
  | r :: rest =>
      let? v := getitem r key in
      let? n := count_eq key text rest in
      ok (if eq_str v text then S n else n)
  end.

(** What can be a key of a dictionary. *)
Definition hashable (v : value) : bool :=
  match v with
  | VList _ | VDict _ => false
  | _ => true
  end.

(** Two keys are the same key. *)
Definition key_eq (N : numerics) (a b : value) : bool :=
  match a, b with
  | VStr s, VStr t => String.eqb s t
  | VNone, VNone => true
  | (VBool _ | VInt _ | VFloat _), (VBool _ | VInt _ | VFloat _) => num_eq N a b
  | _, _ => false
  end.

(** [counts[key] = counts.get(key, 0) + 1] *)
Fixpoint bump (N : numerics) (key : value) (counts : list (value * nat))
    : list (value * nat) :=
  match counts with
  | [] => [(key, 1%nat)]
  | (k, n) :: rest =>
      if key_eq N k key then (k, S n) :: rest else (k, n) :: bump N key rest
  end.

(** [if key in counts: counts[key] += 1] for a text [key] *)
Fixpoint bump_listed (key : string) (counts : list (string * nat))
    : list (string * nat) :=
  match counts with
  | [] => []
  | (k, n) :: rest =>
      if String.eqb k key then (k, S n) :: rest else (k, n) :: bump_listed key rest
  end.

(** The loop that counts disaster types and severity levels. *)
Fixpoint tally (N : numerics) (reports : list (gmap string value))
    (types : list (value * nat)) (levels : list (string * nat))
    : result (list (value * nat) * list (string * nat)) :=
  match reports with
  | [] => ok (types, levels)
  | report :: rest =>
      let? disaster_type := getitem report "disaster_type" in
      if negb (hashable disaster_type) then raise TypeError
      else
        let types' := bump N disaster_type types in
        let? severity := getitem report "severity" in
        if negb (hashable severity) then raise TypeError
        else
          let levels' :=
            match severity with
            | VStr s => bump_listed s levels
            | _ => levels
            end in
          tally N rest types' levels'
  end.

(** The statistics of a list of reports. *)
Definition dashboard (N : numerics) (reports : list (gmap string value))
    : result stats :=
  let? pending := count_eq "status" "Pending" reports in
  let? resolved := count_eq "status" "Resolved" reports in
  let? critical := count_eq "severity" "Critical" reports in
  let? counted :=
    tally N reports []
      [("Low", 0%nat); ("Medium", 0%nat); ("High", 0%nat); ("Critical", 0%nat)] in
  ok {| total_reports := length reports;
        pending_reports := pending;
        resolved_reports := resolved;
        critical_reports := critical;
        disaster_types := fst counted;
        severity_breakdown := snd counted;
        recent_reports := firstn 5 reports |}.

Definition is_text (v : value) : bool :=
  match v with
  | VStr _ => true
  | _ => false
  end.

Definition is_number (v : value) : bool :=
  match v with
  | VBool _ | VInt _ | VFloat _ => true
  | _ => false
  end.

(** [jsonify] writes every dictionary with its keys sorted.  The keys of
    [stats], of [severity_breakdown] and of the reports are texts; the keys
    of [disaster_types] are whatever the reports hold.  Sorting two keys or
    more compares them: texts compare with texts and numbers with numbers,
    [None] and keys of both kinds raise [TypeError]. *)
Definition sortable (keys : list value) : bool :=
  match keys with
  | [] | [_] => true
  | _ => forallb is_text keys || forallb is_number keys
  end.

(** [get_dashboard_stats]: the statistics of what [get_all_reports()]
    returns with its default arguments. *)
Definition get_dashboard_stats (t : tables) (N : numerics)
    : response * list db_call :=
  let '(result, calls) := ReportQueries.get_all_reports t ∅ 50 in
  match result with
  | ReportQueries.ListFailure err => ((500, JsonError err), calls)
  | ReportQueries.ListSuccess reports =>
      match dashboard N reports with
      | inr s =>
          if sortable (map fst (disaster_types s))
          then ((200, JsonStats s), calls)
          else ((500, JsonError (StrOfExn TypeError)), calls)
      | inl e => ((500, JsonError (StrOfExn e)), calls)
      end
  end.

End Routes.

(** ** Reading the counters of the dashboard *)
Module Counters.

(** The sum of the counts of a dictionary of counters. *)
Definition total {K : Type} (counts : list (K * nat)) : nat :=
  list_sum (map snd counts).

(** [counts[key]], and 0 when the key is absent. *)
Definition level (key : string) (counts : list (string * nat)) : nat :=
  match List.find (fun entry => String.eqb (fst entry) key) counts with
  | Some entry => snd entry
  | None => 0%nat
  end.

End Counters.

(** ** The test of the nearby search *)
Module Reach.

(** The report passes the test of the loop: it has both coordinates and its
    distance from the centre is at most the radius. *)
Definition in_reach (N : numerics) (lat lng radius_km : float)
    (report : gmap string value) : Prop :=
  exists rlat rlng d,
    report !! "latitude" = Some rlat
    /\ report !! "longitude" = Some rlng
    /\ calculate_distance N lat lng rlat rlng = inr d
    /\ PrimFloat.leb d radius_km = true.

End Reach.

(** ** A table with two reports *)
Module Shelf.

(** A stand-in for the numeric code: no text is an integer, no two numbers
    are equal, and the distance is the difference of the latitudes, in
    degrees. *)
Definition stand_in_numerics : numerics :=
  {| int_of_str := fun _ => None;
     num_eq := fun _ _ => false;
     calculate_distance := fun lat _ rlat _ =>
       match rlat with
       | VFloat f => ok (PrimFloat.abs (PrimFloat.sub f lat))
       | _ => raise TypeError
       end |}.

Definition report_flood : gmap string value :=
  <["status" := VStr "Pending"]>
    (<["id" := VStr "1A2B3C4D"]> (Scenario.draft_located "Flood" "Critical")).

Definition report_fire : gmap string value :=
  <["latitude" := VFloat 48.5%float]>
    (<["status" := VStr "Resolved"]>
       (<["id" := VStr "5E6F7A8B"]> (Scenario.draft_located "Fire" "Low"))).

(** A table that returns the two reports for every query and the changed
    columns for every update. *)
Definition two_reports : tables :=
  {| reports_select := fun _ => InsertData [report_flood; report_fire];
     reports_update := fun changes report_id =>
       InsertData [<["id" := VStr report_id]> changes] |}.

(** A world whose [float] reads the two texts "12.9" and "77.6", and is
    otherwise as [Scenario.world_up]. *)
Definition world_reading_floats : world :=
  {| lib :=
       {| py_str := py_str Scenario.stand_in_lib;
          float_of_str := fun s =>
            if String.eqb s "12.9" then Some 12.9%float
            else if String.eqb s "77.6" then Some 77.6%float
            else None;
          float_of_int := float_of_int Scenario.stand_in_lib;
          json_dumps := json_dumps Scenario.stand_in_lib |};
     uuid4_id := uuid4_id Scenario.world_up;
     now_iso := now_iso Scenario.world_up;
     reports_insert := reports_insert Scenario.world_up;
     alerts_insert := alerts_insert Scenario.world_up;
     post_raises := None;
     user_reports_get := user_reports_get Scenario.world_up;
     get_file := get_file Scenario.world_up |}.

(** The query string [?lat=12.9&lng=77.6]. *)
Definition args_center : gmap string string :=
  <["lng" := "77.6"]> (<["lat" := "12.9"]> ∅).

(** A table that cannot be reached. *)
Definition unreachable : tables :=
  {| reports_select := fun _ => InsertRaises (ExternalError "connection refused");
     reports_update := fun _ _ => InsertRaises (ExternalError "connection refused") |}.

End Shelf.

(** ** Updates of several users *)
Module Polling.
Import TelegramBot.

(** One update as [run_polling] delivers it: the user it comes from, and the
    state of the collaborators while it is handled. *)
Record incoming := {
  during : world;
  sender : user;
  content : update
}.

(** The application handles the updates one at a time, in the order of
    arrival (the builder of [main] does not enable concurrent updates). *)
Fixpoint serve (arrivals : list incoming) (sessions : gmap Z session) : outcome :=
  match arrivals with
  | [] => silent sessions
  | a :: rest =>
      let first := handle (during a) (sender a) (content a) sessions in
      let then_ := serve rest (user_sessions first) in
      {| user_sessions := user_sessions then_;
         replies := replies first ++ replies then_;
         effects := effects first ++ effects then_ |}
  end.

(** The updates that come from the user with id [uid]. *)
Definition from_user (uid : Z) (arrivals : list incoming) : list incoming :=
  List.filter (fun a => Z.eqb (tg_id (sender a)) uid) arrivals.

(** The updates that open a dialog: [/report], [/emergency] and the two
    buttons of the reply keyboard that call the same handlers. *)
Definition opens_dialog (upd : update) : bool :=
  match upd with
  | CommandReport | CommandEmergency => true
  | Text text =>
      String.eqb text "🚨 Report Disaster" || String.eqb text "🆘 Emergency"
  | _ => false
  end.

(** Every session is filed under the user id that its draft carries. *)
Definition keyed_by_user (sessions : gmap Z session) : Prop :=
  forall (uid : Z) (sess : session),
    sessions !! uid = Some sess ->
    report_data sess !! "user_id" = Some (VInt uid).

End Polling.

(** ** Reading a trace *)
Module Trace.

Definition is_trigger (e : effect) : bool :=
  match e with
  | ECallTrigger _ => true
  | _ => false
  end.

(** How many times [trigger_emergency_alert] was called. *)
Definition trigger_calls (eff : list effect) : nat :=
  List.length (List.filter is_trigger eff).

(** The rows handed to the [disaster_reports] table, in order. *)
Fixpoint inserted_reports (eff : list effect) : list db_row :=
  match eff with
  | [] => []
  | EInsertReport row :: rest => row :: inserted_reports rest
  | _ :: rest => inserted_reports rest
  end.

(** The bodies posted to the backend, in order. *)
Fixpoint posted (eff : list effect) : list (gmap string value) :=
  match eff with
  | [] => []
  | EHttpPost json :: rest => json :: posted rest
  | _ :: rest => posted rest
  end.

End Trace.

(** * Properties *)

Import TelegramBot StandardPath.

(** ** The string methods on the callback data the keyboards offer *)

Example replace_drops_prefix : replace "type_Flood" "type_" "" = "Flood".
Proof. reflexivity. Qed.

Example replace_drops_every_occurrence :
  replace "type_a_type_b" "type_" "" = "a_b".
Proof. reflexivity. Qed.

Lemma type_selection_decoded (item : string) :
  In item DISASTER_TYPES ->
  startswith (String.append "type_" item) "type_" = true
  /\ replace (String.append "type_" item) "type_" "" = item.
Proof.
  unfold DISASTER_TYPES. simpl.
  intros H. repeat (destruct H as [<- | H]; [split; reflexivity |]). destruct H.
Qed.

Lemma severity_selection_decoded (item : string) :
  In item SEVERITY_LEVELS ->
  startswith (String.append "severity_" item) "type_" = false
  /\ startswith (String.append "severity_" item) "severity_" = true
  /\ replace (String.append "severity_" item) "severity_" "" = item.
Proof.
  unfold SEVERITY_LEVELS. simpl.
  intros H. repeat (destruct H as [<- | H]; [repeat split; reflexivity |]). destruct H.
Qed.

(** ** The dialog *)

(** C1 (the code departs from the claim): after the emergency start, by
    [/emergency] or by the keyboard's button, and one location message,
    nothing is sent to the backend.  [handle_location] overwrites the step
    with ['description'] before it tests for ['emergency_location'], so the
    user is asked for a description and the session stays open, with the
    emergency type and severity and the coordinates in the draft. *)
Theorem emergency_location_does_not_submit
    (w : world) (u : user) (sessions : gmap Z session) (by_button : bool)
    (lat lng : float) :
  let start := if by_button then Text "🆘 Emergency" else CommandEmergency in
  let out := run w u [start; Location lat lng] sessions in
  effects out = []
  /\ replies out = [EmergencyAskLocation; LocationReceived]
  /\ exists draft,
       user_sessions out !! tg_id u
         = Some {| step := step_description; report_data := draft |}
       /\ draft !! "disaster_type" = Some (VStr "Emergency")
       /\ draft !! "severity" = Some (VStr "Critical")
       /\ draft !! "latitude" = Some (VFloat lat)
       /\ draft !! "longitude" = Some (VFloat lng)
       /\ draft !! "description" = None.
Proof.
  cbv zeta.
  assert (Hstart :
    handle w u (if by_button then Text "🆘 Emergency" else CommandEmergency) sessions
    = emergency_report w u sessions) by (destruct by_button; reflexivity).
  cbn [run]. rewrite Hstart.
  cbn [handle emergency_report say user_sessions replies effects].
  unfold handle_location. rewrite lookup_insert_eq.
  cbn [step report_data]. case_decide; [discriminate |].
  cbn [say silent user_sessions replies effects app].
  repeat split. eexists. split; [apply lookup_insert_eq |].
  repeat split; reflexivity.
Qed.

(** C4 (the code departs from the claim): the keyboard shown after a location
    offers a "Cancel" button, but no handler treats its text apart.  In the
    description step the text "Cancel" is stored as the description and the
    dialog moves on to the photos; in every other step it is ignored.  The
    session is never deleted. *)
Theorem cancel_text_keeps_session
    (w : world) (u : user) (sessions : gmap Z session) (sess : session) :
  let out := handle_message w u "Cancel" (<[tg_id u := sess]> sessions) in
  user_sessions out !! tg_id u
    = Some (if decide (step sess = step_description)
            then {| step := step_photos;
                    report_data :=
                      <["description" := VStr "Cancel"]> (report_data sess) |}
            else sess).
Proof.
  unfold handle_message. cbn [String.eqb Ascii.eqb Bool.eqb].
  rewrite lookup_insert_eq. case_decide.
  - cbn [say user_sessions]. apply lookup_insert_eq.
  - cbn [silent user_sessions]. apply lookup_insert_eq.
Qed.

(** C10: a photo changes a session only when it is the sender's and its step
    is ['photos']; the picture is then appended to the draft's photo list and
    the step stays.  Every other session, and the sender's in any other step,
    is as before; without a session for the sender nothing changes. *)
Theorem photo_recorded_only_in_photos_step
    (w : world) (u : user) (photo : list string) (sessions : gmap Z session) :
  let out := handle_photo w u photo sessions in
  (user_sessions out = sessions
   \/ exists sess, sessions !! tg_id u = Some sess /\ step sess = step_photos)
  /\ forall uid : Z,
       user_sessions out !! uid = sessions !! uid
       \/ (uid = tg_id u
           /\ exists sess file_id file_path l,
                sessions !! uid = Some sess
                /\ step sess = step_photos
                /\ last photo = Some file_id
                /\ get_file w file_id = Some file_path
                /\ (report_data sess !! "photos" = None /\ l = []
                    \/ report_data sess !! "photos" = Some (VList l))
                /\ user_sessions out !! uid
                   = Some {| step := step_photos;
                             report_data :=
                               <["photos" := VList (l ++ [photo_entry file_id file_path])]>
                                 (report_data sess) |}).
Proof.
  unfold handle_photo.
  destruct (sessions !! tg_id u) as [sess |] eqn:Hs;
    [| split; [left | intros; left]; reflexivity].
  case_decide as Hstep; [| split; [left | intros; left]; reflexivity].
  split; [right; eauto |].
  intros uid.
  destruct (last photo) as [file_id |] eqn:Hlast; [| left; reflexivity].
  destruct (get_file w file_id) as [file_path |] eqn:Hfile; [| left; reflexivity].
  destruct (decide (uid = tg_id u)) as [-> | Hne].
  - destruct (report_data sess !! "photos") as [[| | | | | l |] |] eqn:Hph;
      try (left; reflexivity).
    + right. split; [reflexivity |].
      exists sess, file_id, file_path, l.
      cbn [say user_sessions]. rewrite lookup_insert_eq, Hstep. auto 10.
    + right. split; [reflexivity |].
      exists sess, file_id, file_path, [].
      cbn [say user_sessions]. rewrite lookup_insert_eq, Hstep. auto 10.
  - left.
    destruct (report_data sess !! "photos") as [[| | | | | l |] |];
      cbn [say silent user_sessions]; try reflexivity;
      apply lookup_insert_ne; congruence.
Qed.

(** C3 (as the code has it): no selection and no coordinate pair is checked.
    Callback data that starts with [type_] is stored as the disaster type,
    with the prefix removed, and the step becomes ['severity'], whatever the
    step was and whether or not the value is one of [DISASTER_TYPES]; data
    that starts with [severity_] is stored as the severity and the step
    becomes ['location']; in a session that is not waiting for the location
    of an emergency, a location is stored whatever its latitude and longitude
    and the step becomes ['description'].  Only callback data with neither
    prefix leaves the session as it was, and it gets no reply.  What a
    location does in the emergency step is not part of this statement. *)
Theorem selections_and_coordinates_stored_unchecked
    (w : world) (u : user) (sessions : gmap Z session) (sess : session) :
  sessions !! tg_id u = Some sess ->
  (forall data, startswith data "type_" = true ->
     user_sessions (button_callback u data sessions)
     = <[tg_id u := {| step := step_severity;
                       report_data :=
                         <["disaster_type" := VStr (replace data "type_" "")]>
                           (report_data sess) |}]> sessions)
  /\ (forall data, startswith data "type_" = false ->
        startswith data "severity_" = true ->
        user_sessions (button_callback u data sessions)
        = <[tg_id u := {| step := step_location;
                          report_data :=
                            <["severity" := VStr (replace data "severity_" "")]>
                              (report_data sess) |}]> sessions)
  /\ (step sess <> step_emergency_location ->
      forall lat lng,
        handle_location w u lat lng sessions
        = say (<[tg_id u := {| step := step_description;
                               report_data :=
                                 <["longitude" := VFloat lng]>
                                   (<["latitude" := VFloat lat]> (report_data sess)) |}]>
                 sessions)
              [LocationReceived])
  /\ (forall data, startswith data "type_" = false ->
        startswith data "severity_" = false ->
        button_callback u data sessions = silent sessions).
Proof.
  intros Hs. split; [| split; [| split]].
  - intros data Ht. unfold button_callback. rewrite Hs, Ht. reflexivity.
  - intros data Ht Hv. unfold button_callback. rewrite Hs, Ht, Hv. reflexivity.
  - intros _ lat lng. unfold handle_location. rewrite Hs.
    cbn [step]. case_decide; [discriminate | reflexivity].
  - intros data Ht Hv. unfold button_callback. rewrite Hs, Ht, Hv. reflexivity.
Qed.

Lemma selections_and_coordinates_stored_unchecked_witness :
  let sessions := Scenario.at_step step_location (Scenario.draft_selected "Flood" "High") in
  let sess :=
    {| step := step_location; report_data := Scenario.draft_selected "Flood" "High" |} in
  sessions !! 7 = Some sess
  /\ step sess <> step_emergency_location
  /\ user_sessions (button_callback Scenario.alice "type_Fire" sessions)
     = <[7 := {| step := step_severity;
                 report_data :=
                   <["disaster_type" := VStr "Fire"]>
                     (Scenario.draft_selected "Flood" "High") |}]>
         sessions
  /\ handle_location Scenario.world_up Scenario.alice 12.9%float 77.6%float sessions
     = say (<[7 := {| step := step_description;
                      report_data := Scenario.draft_located "Flood" "High" |}]>
              sessions)
           [LocationReceived].
Proof.
  assert (Hstep : step_location <> step_emergency_location) by discriminate.
  destruct (selections_and_coordinates_stored_unchecked
              Scenario.world_up Scenario.alice
              (Scenario.at_step step_location (Scenario.draft_selected "Flood" "High"))
              {| step := step_location;
                 report_data := Scenario.draft_selected "Flood" "High" |}
              eq_refl) as (Htype & _ & Hloc & _).
  split; [reflexivity |]. split; [exact Hstep |]. split.
  - apply (Htype "type_Fire"). reflexivity.
  - apply (Hloc Hstep 12.9%float 77.6%float).
Defined.

(** C3 (the claim fails): a disaster type that is not in [DISASTER_TYPES]
    moves the dialog from the type step to the severity step and is written
    into the draft; a latitude of 123.5 with a longitude of 500 moves it from
    the location step to the description step and is written into the
    draft. *)
Lemma unlisted_type_and_out_of_range_coordinates_accepted :
  Vocabulary.listed "Volcano" DISASTER_TYPES = false
  /\ user_sessions
       (handle Scenario.world_up Scenario.alice (CallbackQuery "type_Volcano")
          (Scenario.at_step step_disaster_type Scenario.draft_new))
     !! 7
     = Some {| step := step_severity;
               report_data :=
                 <["disaster_type" := VStr "Volcano"]> Scenario.draft_new |}
  /\ Vocabulary.coordinates_in_range 123.5%float 500%float = false
  /\ user_sessions
       (handle Scenario.world_up Scenario.alice (Location 123.5%float 500%float)
          (Scenario.at_step step_location (Scenario.draft_selected "Flood" "High")))
     !! 7
     = Some {| step := step_description;
               report_data :=
                 <["longitude" := VFloat 500%float]>
                   (<["latitude" := VFloat 123.5%float]>
                      (Scenario.draft_selected "Flood" "High")) |}.
Proof. repeat split; vm_compute; reflexivity. Qed.

(** ** The backend *)

Lemma db_data_inv (w : world) (rid : string) (data : gmap string value)
    (row : db_row) :
  SupabaseClient.db_data w rid data = inr row ->
  exists uid lat_v lng_v,
    data !! "user_id" = Some uid
    /\ data !! "disaster_type" = Some (disaster_type row)
    /\ data !! "severity" = Some (severity row)
    /\ data !! "latitude" = Some lat_v
    /\ py_float (lib w) lat_v = inr (latitude row)
    /\ data !! "longitude" = Some lng_v
    /\ py_float (lib w) lng_v = inr (longitude row)
    /\ row = {| id := rid;
                user_id := py_str (lib w) uid;
                username := get data "username" (VStr "Anonymous");
                disaster_type := disaster_type row;
                severity := severity row;
                latitude := latitude row;
                longitude := longitude row;
                description := get data "description" (VStr "");
                photos := json_dumps (lib w) (get data "photos" (VList []));
                status := "Pending";
                source := "Telegram Bot";
                created_at := now_iso w 0;
                updated_at := now_iso w 1 |}.
Proof.
  unfold SupabaseClient.db_data, getitem, ok, raise.
  destruct (data !! "user_id") as [uid |]; [| discriminate].
  destruct (data !! "disaster_type") as [dtype |]; [| discriminate].
  destruct (data !! "severity") as [sev |]; [| discriminate].
  destruct (data !! "latitude") as [lat_v |]; [| discriminate].
  destruct (py_float (lib w) lat_v) as [| lat] eqn:Hlat; [discriminate |].
  destruct (data !! "longitude") as [lng_v |]; [| discriminate].
  destruct (py_float (lib w) lng_v) as [| lng] eqn:Hlng; [discriminate |].
  intros [= <-]. exists uid, lat_v, lng_v. cbn. auto 10.
Qed.

(** [List.find] returns the first element that passes the test. *)
Lemma find_first {A : Type} (p : A -> bool) (l : list A) (x : A) :
  List.find p l = Some x ->
  exists before after,
    l = before ++ x :: after
    /\ Forall (fun y => p y = false) before
    /\ p x = true.
Proof.
  induction l as [| a l IH]; [discriminate |].
  cbn [List.find]. destruct (p a) eqn:Hp.
  - intros [= <-]. exists [], l. repeat split; [constructor | exact Hp].
  - intros H. destruct (IH H) as (before & after & -> & Hall & Hx).
    exists (a :: before), after. repeat split; [constructor; assumption | exact Hx].
Qed.

(** A list has one first element that fails a test. *)
Lemma first_failing_unique {A : Type} (P : A -> Prop)
    (before before' after after' : list A) (x x' : A) :
  before ++ x :: after = before' ++ x' :: after' ->
  Forall P before -> ~ P x ->
  Forall P before' -> ~ P x' ->
  x = x'.
Proof.
  revert before'. induction before as [| a before IH]; intros [| a' before'] Heq Hb Hx Hb' Hx'.
  - injection Heq as -> _. reflexivity.
  - injection Heq as -> _. apply Forall_cons in Hb' as [Ha _]. contradiction.
  - injection Heq as -> _. apply Forall_cons in Hb as [Ha _]. contradiction.
  - injection Heq as -> Heq.
    apply Forall_cons in Hb as [_ Hb]. apply Forall_cons in Hb' as [_ Hb'].
    exact (IH before' Heq Hb Hx Hb' Hx').
Qed.

Lemma missing_field_Some (data : gmap string value) (field : string) :
  App.missing_field data = Some field ->
  In field App.required_fields /\ data !! field = None.
Proof.
  unfold App.missing_field. intros H. apply List.find_some in H as [Hin Hc].
  split; [exact Hin |]. unfold contains in Hc.
  destruct (data !! field); [discriminate | reflexivity].
Qed.

Lemma missing_field_None (data : gmap string value) :
  App.missing_field data = None <->
  forall field, In field App.required_fields -> is_Some (data !! field).
Proof.
  unfold App.missing_field. split.
  - intros H field Hin. pose proof (List.find_none _ _ H field Hin) as Hc.
    unfold contains in Hc. destruct (data !! field); [eauto | discriminate].
  - intros H. destruct (List.find _ _) as [field |] eqn:Hf; [| reflexivity].
    apply List.find_some in Hf as [Hin Hc]. destruct (H field Hin) as [v Hv].
    unfold contains in Hc. rewrite Hv in Hc. discriminate.
Qed.

(** What the service inserts is what the route's trace shows, and a stored
    report means that no required field was missing. *)
Lemma create_report_stored (w : world) (data : gmap string value)
    (rid : string) (stored : gmap string value) :
  fst (SupabaseClient.create_report w data) = SupabaseClient.Success rid stored ->
  exists row,
    SupabaseClient.db_data w (uuid4_id w) data = inr row
    /\ rid = uuid4_id w
    /\ App.missing_field data = None
    /\ App.create_report w data
       = ((201, App.JsonCreated rid stored),
          EInsertReport row
            :: (if eq_str (severity row) "Critical"
                then ECallTrigger stored
                     :: snd (SupabaseClient.trigger_emergency_alert w stored)
                else [])).
Proof.
  intros H. unfold App.create_report. revert H.
  unfold SupabaseClient.create_report.
  destruct (SupabaseClient.db_data w (uuid4_id w) data) as [e | row] eqn:Hrow;
    [discriminate |].
  destruct (db_data_inv _ _ _ _ Hrow)
    as (uid & lat_v & lng_v & Hu & Ht & Hs & Hla & _ & Hlo & _ & _).
  assert (Hm : App.missing_field data = None).
  { apply missing_field_None. unfold App.required_fields. simpl.
    intros field [<- | [<- | [<- | [<- | [<- | []]]]]]; eauto. }
  destruct (reports_insert w row) as [e | [| first rest]]; try discriminate.
  cbn [fst]. intros [= <- <-]. exists row. rewrite Hm.
  unfold getitem. rewrite Hs. cbn. auto.
Qed.

Lemma alert_trace (w : world) (report : gmap string value) :
  Trace.inserted_reports (snd (SupabaseClient.trigger_emergency_alert w report)) = []
  /\ Trace.trigger_calls (snd (SupabaseClient.trigger_emergency_alert w report)) = 0%nat.
Proof.
  unfold SupabaseClient.trigger_emergency_alert, SupabaseClient.alert_failed.
  destruct (SupabaseClient.alert_data w report) as [e | row]; [split; reflexivity |].
  destruct (alerts_insert w row) as [e | [| first rest]]; try (split; reflexivity).
  destruct (getitem first "id"); split; reflexivity.
Qed.

Lemma alert_failure_printed (w : world) (report : gmap string value) (err : error) :
  fst (SupabaseClient.trigger_emergency_alert w report) = SupabaseClient.AlertFailure err ->
  exists e, err = StrOfExn e
            /\ In (EPrintAlertError e)
                  (snd (SupabaseClient.trigger_emergency_alert w report)).
Proof.
  unfold SupabaseClient.trigger_emergency_alert, SupabaseClient.alert_failed.
  destruct (SupabaseClient.alert_data w report) as [e | row].
  - intros [= <-]. exists e. split; [reflexivity | left; reflexivity].
  - destruct (alerts_insert w row) as [e | [| first rest]].
    + intros [= <-]. exists e. split; [reflexivity | right; left; reflexivity].
    + discriminate.
    + destruct (getitem first "id") as [e | aid]; [| discriminate].
      intros [= <-]. exists e. split; [reflexivity |].
      cbn [snd]. right. apply in_or_app. right. left. reflexivity.
Qed.

(** The rows that the route hands to the table: none, or the one that
    [db_data] builds from the request. *)
Lemma route_inserts (w : world) (data : gmap string value) :
  Trace.inserted_reports (snd (App.create_report w data)) = []
  \/ exists row,
       SupabaseClient.db_data w (uuid4_id w) data = inr row
       /\ Trace.inserted_reports (snd (App.create_report w data)) = [row].
Proof.
  unfold App.create_report.
  destruct (App.missing_field data); [left; reflexivity |].
  unfold SupabaseClient.create_report.
  destruct (SupabaseClient.db_data w (uuid4_id w) data) as [e | row] eqn:Hrow;
    [left; reflexivity |].
  right. exists row. split; [reflexivity |].
  destruct (reports_insert w row) as [e | [| stored rest]]; try reflexivity.
  destruct (getitem data "severity") as [e | sev]; [reflexivity |].
  destruct (eq_str sev "Critical"); [| reflexivity].
  cbn. f_equal. apply alert_trace.
Qed.




(** C6 (as the code has it): the route answers 400, stores nothing and calls
    no alert whenever one of [user_id], [disaster_type], [severity],
    [latitude], [longitude] is not a key of the request; the answer names the
    first such field in this order, every field before it being present.
    The description is not required: a request that has the five fields and
    no description is never answered 400, and when its two coordinates
    convert to floats one row is handed to the table, with the empty text as
    description, and the answer is 201 with the report as soon as the table
    returns it. *)
Theorem missing_required_field_rejected
    (w : world) (data : gmap string value) :
  let r := App.create_report w data in
  (forall field,
     In field App.required_fields ->
     data !! field = None ->
     exists before first after,
       App.required_fields = before ++ first :: after
       /\ Forall (fun f => is_Some (data !! f)) before
       /\ data !! first = None
       /\ r = ((400, App.JsonError (Msg (String.append "Missing required field: " first))),
               []))
  /\ ((forall field, In field App.required_fields -> is_Some (data !! field)) ->
      data !! "description" = None ->
      fst (fst r) <> 400
      /\ forall lat_v lng_v lat lng,
           data !! "latitude" = Some lat_v ->
           py_float (lib w) lat_v = inr lat ->
           data !! "longitude" = Some lng_v ->
           py_float (lib w) lng_v = inr lng ->
           exists row,
             Trace.inserted_reports (snd r) = [row]
             /\ description row = VStr ""
             /\ latitude row = lat
             /\ longitude row = lng
             /\ forall stored rest,
                  reports_insert w row = InsertData (stored :: rest) ->
                  fst r = (201, App.JsonCreated (uuid4_id w) stored)).
Proof.
  cbv zeta. split.
  - intros field Hin Hnone.
    destruct (App.missing_field data) as [first |] eqn:Hm.
    + unfold App.missing_field in Hm.
      destruct (find_first _ _ _ Hm) as (before & after & Hsplit & Hbefore & Hfirst).
      exists before, first, after. split; [exact Hsplit |]. split; [| split].
      * eapply Forall_impl; [exact Hbefore |]. cbv beta. intros f Hf.
        unfold contains in Hf. destruct (data !! f); [eauto | discriminate].
      * unfold contains in Hfirst. destruct (data !! first); [discriminate | reflexivity].
      * unfold App.create_report, App.missing_field. rewrite Hm. reflexivity.
    + destruct (proj1 (missing_field_None data) Hm field Hin) as [v Hv].
      congruence.
  - intros Hall Hdesc.
    pose proof (proj2 (missing_field_None data) Hall) as Hm.
    destruct (Hall "user_id") as [uid Hu]; [cbn; auto |].
    destruct (Hall "disaster_type") as [dtype Ht]; [cbn; auto |].
    destruct (Hall "severity") as [sev Hs]; [cbn; auto 10 |].
    split.
    + unfold App.create_report. rewrite Hm.
      destruct (SupabaseClient.create_report w data) as [[rid stored | err] eff].
      * unfold getitem. rewrite Hs. cbn. discriminate.
      * cbn. discriminate.
    + intros lat_v lng_v lat lng Hla Hfla Hlo Hflo.
      set (row := {| id := uuid4_id w;
                     user_id := py_str (lib w) uid;
                     username := get data "username" (VStr "Anonymous");
                     disaster_type := dtype;
                     severity := sev;
                     latitude := lat;
                     longitude := lng;
                     description := VStr "";
                     photos := json_dumps (lib w) (get data "photos" (VList []));
                     status := "Pending";
                     source := "Telegram Bot";
                     created_at := now_iso w 0;
                     updated_at := now_iso w 1 |}).
      assert (Hrow : SupabaseClient.db_data w (uuid4_id w) data = inr row).
      { unfold SupabaseClient.db_data, getitem, ok, raise.
        rewrite Hu, Ht, Hs, Hla. cbv beta iota. rewrite Hfla, Hlo. cbv beta iota.
        rewrite Hflo. unfold get at 2. rewrite Hdesc. reflexivity. }
      exists row. unfold App.create_report, SupabaseClient.create_report.
      rewrite Hm, Hrow.
      destruct (reports_insert w row) as [e | [| first others]].
      * repeat split; try reflexivity. discriminate.
      * repeat split; try reflexivity. discriminate.
      * unfold getitem, ok. rewrite Hs. cbv beta iota. cbn [fst snd app].
        destruct (alert_trace w first) as [Hins _].
        repeat split; try reflexivity.
        -- destruct (eq_str sev "Critical"); [| reflexivity].
           cbn. f_equal. exact Hins.
        -- intros stored rest [= <- _]. reflexivity.
Qed.

Lemma missing_required_field_rejected_witness :
  (exists before after,
     App.required_fields = before ++ "disaster_type" :: after
     /\ Forall (fun f => is_Some (Scenario.draft_new !! f)) before
     /\ App.create_report Scenario.world_up Scenario.draft_new
        = ((400, App.JsonError (Msg "Missing required field: disaster_type")), []))
  /\ (let data := Scenario.draft_located "Flood" "High" in
      let r := App.create_report Scenario.world_up data in
      data !! "description" = None
      /\ fst (fst r) <> 400
      /\ exists row,
           Trace.inserted_reports (snd r) = [row]
           /\ description row = VStr ""
           /\ fst r = (201, App.JsonCreated "1A2B3C4D" (Scenario.stored_row row))).
Proof.
  split.
  - assert (Hin : In "severity" App.required_fields) by (cbn; auto).
    destruct (proj1 (missing_required_field_rejected
                       Scenario.world_up Scenario.draft_new)
                "severity" Hin eq_refl)
      as (before & first & after & Hsplit & Hbefore & Hfirst & Hr).
    assert (Hname : first = "disaster_type").
    { apply (first_failing_unique (fun f => is_Some (Scenario.draft_new !! f))
               before ["user_id"] after ["severity"; "latitude"; "longitude"]).
      - rewrite <- Hsplit. reflexivity.
      - exact Hbefore.
      - rewrite Hfirst. intros [v Hv]. discriminate Hv.
      - repeat constructor. exists (VInt 7). reflexivity.
      - intros [v Hv]. discriminate Hv. }
    rewrite Hname in Hsplit, Hr.
    exists before, after. split; [exact Hsplit |]. split; [exact Hbefore | exact Hr].
  - cbv zeta. split; [reflexivity |].
    assert (Hall : forall field, In field App.required_fields ->
                     is_Some (Scenario.draft_located "Flood" "High" !! field)).
    { intros field Hin. cbn in Hin.
      repeat (destruct Hin as [<- | Hin]; [vm_compute; eauto |]). destruct Hin. }
    destruct (proj2 (missing_required_field_rejected
                       Scenario.world_up (Scenario.draft_located "Flood" "High"))
                Hall eq_refl)
      as [Hnot Hrow].
    split; [exact Hnot |].
    destruct (Hrow (VFloat 12.9%float) (VFloat 77.6%float) 12.9%float 77.6%float
                eq_refl eq_refl eq_refl eq_refl)
      as (row & Hone & Hdesc & _ & _ & Hcreated).
    exists row. split; [exact Hone |]. split; [exact Hdesc |].
    apply (Hcreated (Scenario.stored_row row) []). reflexivity.
Defined.

(** C6 (the claim fails): a draft with every field but the description is
    not rejected.  The route answers 201 and the stored description is the
    empty string.  The dialog reaches this submission: after the location, a
    press on a button of the first keyboard puts the step back to
    ['severity'], where "Submit Report" submits. *)
Lemma draft_without_description_is_stored :
  let data := Scenario.draft_located "Flood" "High" in
  let r := App.create_report Scenario.world_up data in
  data !! "description" = None
  /\ fst (fst r) = 201
  /\ map description (Trace.inserted_reports (snd r)) = [VStr ""]
  /\ let out :=
       run Scenario.world_up Scenario.alice
         [CommandReport; CallbackQuery "type_Flood"; CallbackQuery "severity_High";
          Location 12.9%float 77.6%float; CallbackQuery "type_Flood";
          Text "Submit Report"] ∅ in
     Trace.posted (effects out) = [data]
     /\ last (replies out)
        = Some (Submitted (VStr "1A2B3C4D") (VStr "Flood") (VStr "High") false).
Proof. repeat split; vm_compute; reflexivity. Qed.

(** C7: when the store accepts the report, the route answers 201 and
    [trigger_emergency_alert] is called once, with the stored report, if the
    severity that the request carries (the one of the row handed to the
    table) is "Critical", and not at all if it is anything else; when the
    store fails it is not called. *)
Theorem alert_triggered_once_iff_stored_and_critical
    (w : world) (data : gmap string value) :
  let r := App.create_report w data in
  (forall rid stored,
     fst (SupabaseClient.create_report w data) = SupabaseClient.Success rid stored ->
     exists sev,
       data !! "severity" = Some sev
       /\ fst r = (201, App.JsonCreated rid stored)
       /\ map severity (Trace.inserted_reports (snd r)) = [sev]
       /\ List.filter Trace.is_trigger (snd r)
          = (if eq_str sev "Critical" then [ECallTrigger stored] else [])
       /\ Trace.trigger_calls (snd r)
          = if eq_str sev "Critical" then 1%nat else 0%nat)
  /\ (forall err,
        fst (SupabaseClient.create_report w data) = SupabaseClient.Failure err ->
        List.filter Trace.is_trigger (snd r) = []
        /\ Trace.trigger_calls (snd r) = 0%nat).
Proof.
  cbv zeta. split.
  - intros rid stored H.
    destruct (create_report_stored _ _ _ _ H) as (row & Hrow & _ & _ & Heq).
    destruct (db_data_inv _ _ _ _ Hrow) as (_ & _ & _ & _ & _ & Hs & _).
    exists (severity row). rewrite Heq. cbn [fst snd].
    destruct (alert_trace w stored) as [Hins Htrig].
    assert (Hnone : List.filter Trace.is_trigger
                      (snd (SupabaseClient.trigger_emergency_alert w stored)) = []).
    { unfold Trace.trigger_calls in Htrig.
      destruct (List.filter _ _); [reflexivity | discriminate]. }
    split; [exact Hs |]. split; [reflexivity |].
    unfold Trace.trigger_calls.
    destruct (eq_str (severity row) "Critical").
    + cbn [Trace.inserted_reports List.filter Trace.is_trigger map].
      rewrite Hins, Hnone. repeat split.
    + repeat split.
  - intros err H. unfold Trace.trigger_calls, App.create_report.
    destruct (App.missing_field data); [split; reflexivity |].
    destruct (SupabaseClient.create_report w data) as [[rid stored | err'] eff] eqn:Hc;
      [discriminate |].
    cbn [snd]. revert Hc. unfold SupabaseClient.create_report.
    destruct (SupabaseClient.db_data w (uuid4_id w) data) as [e | row].
    + intros [= _ <-]. split; reflexivity.
    + destruct (reports_insert w row) as [e | [| first rest]];
        intros [= _ <-]; split; reflexivity.
Qed.

Lemma alert_triggered_once_iff_stored_and_critical_witness :
  let stored sev :=
    Scenario.stored_row
      {| id := "1A2B3C4D"; user_id := "7"; username := VStr "alice";
         disaster_type := VStr "Fire"; severity := VStr sev;
         latitude := 12.9%float; longitude := 77.6%float;
         description := VStr ""; photos := "[]"; status := "Pending";
         source := "Telegram Bot";
         created_at := "2024-05-01T10:00:00";
         updated_at := "2024-05-01T10:00:00" |} in
  let critical :=
    App.create_report Scenario.world_up (Scenario.draft_located "Fire" "Critical") in
  let high :=
    App.create_report Scenario.world_up (Scenario.draft_located "Fire" "High") in
  (List.filter Trace.is_trigger (snd critical) = [ECallTrigger (stored "Critical")]
   /\ Trace.trigger_calls (snd critical) = 1%nat)
  /\ (List.filter Trace.is_trigger (snd high) = []
      /\ Trace.trigger_calls (snd high) = 0%nat).
Proof.
  cbv zeta. split.
  - destruct (proj1 (alert_triggered_once_iff_stored_and_critical
                       Scenario.world_up (Scenario.draft_located "Fire" "Critical"))
                "1A2B3C4D"
                (Scenario.stored_row
                   {| id := "1A2B3C4D"; user_id := "7"; username := VStr "alice";
                      disaster_type := VStr "Fire"; severity := VStr "Critical";
                      latitude := 12.9%float; longitude := 77.6%float;
                      description := VStr ""; photos := "[]"; status := "Pending";
                      source := "Telegram Bot";
                      created_at := "2024-05-01T10:00:00";
                      updated_at := "2024-05-01T10:00:00" |})
                eq_refl)
      as (sev & Hsev & _ & _ & Hfilter & Hcalls).
    assert (Hs : Some (VStr "Critical") = Some sev) by exact Hsev.
    injection Hs as <-. split; [exact Hfilter | exact Hcalls].
  - destruct (proj1 (alert_triggered_once_iff_stored_and_critical
                       Scenario.world_up (Scenario.draft_located "Fire" "High"))
                "1A2B3C4D"
                (Scenario.stored_row
                   {| id := "1A2B3C4D"; user_id := "7"; username := VStr "alice";
                      disaster_type := VStr "Fire"; severity := VStr "High";
                      latitude := 12.9%float; longitude := 77.6%float;
                      description := VStr ""; photos := "[]"; status := "Pending";
                      source := "Telegram Bot";
                      created_at := "2024-05-01T10:00:00";
                      updated_at := "2024-05-01T10:00:00" |})
                eq_refl)
      as (sev & Hsev & _ & _ & Hfilter & Hcalls).
    assert (Hs : Some (VStr "High") = Some sev) by exact Hsev.
    injection Hs as <-. split; [exact Hfilter | exact Hcalls].
Defined.

Example critical_report_triggers_one_alert :
  Trace.trigger_calls
    (snd (App.create_report Scenario.world_up (Scenario.draft_located "Fire" "Critical")))
  = 1%nat.
Proof. vm_compute. reflexivity. Qed.

Example high_report_triggers_no_alert :
  Trace.trigger_calls
    (snd (App.create_report Scenario.world_up (Scenario.draft_located "Fire" "High")))
  = 0%nat.
Proof. vm_compute. reflexivity. Qed.

(** C8: when the report is stored and the alert then fails, the route still
    answers 201 with the stored report, the failure is printed by
    [trigger_emergency_alert] and goes no further, and the bot sends the
    reporting user the success message, never the error one. *)
Theorem alert_failure_not_surfaced
    (w : world) (data : gmap string value) (rid : string)
    (stored : gmap string value) (err : error) :
  fst (SupabaseClient.create_report w data) = SupabaseClient.Success rid stored ->
  eq_str (get data "severity" VNone) "Critical" = true ->
  fst (SupabaseClient.trigger_emergency_alert w stored)
    = SupabaseClient.AlertFailure err ->
  fst (App.create_report w data) = (201, App.JsonCreated rid stored)
  /\ Trace.trigger_calls (snd (App.create_report w data)) = 1%nat
  /\ (exists e, err = StrOfExn e
                /\ In (EPrintAlertError e) (snd (App.create_report w data)))
  /\ forall (u : user) (emergency : bool) (sessions : gmap Z session),
       post_raises w = None ->
       sessions !! tg_id u = Some {| step := step_photos; report_data := data |} ->
       replies (submit_report w u emergency sessions)
       = [Submitted (VStr rid)
            (get data "disaster_type" (VStr "N/A"))
            (VStr "Critical") true].
Proof.
  intros Hstore Hcrit Halert.
  destruct (create_report_stored _ _ _ _ Hstore) as (row & Hrow & _ & _ & Heq).
  destruct (db_data_inv _ _ _ _ Hrow) as (_ & _ & _ & _ & _ & Hs & _).
  assert (Hsev : exists s, severity row = VStr s /\ String.eqb s "Critical" = true).
  { unfold get in Hcrit. rewrite Hs in Hcrit.
    destruct (severity row); try discriminate. eauto. }
  destruct Hsev as (s & Hsv & Hsc). apply String.eqb_eq in Hsc. subst s.
  rewrite Hsv in Heq. cbn [eq_str String.eqb Ascii.eqb Bool.eqb] in Heq.
  rewrite Heq. cbn [fst snd].
  destruct (alert_trace w stored) as [_ Htrig].
  destruct (alert_failure_printed _ _ _ Halert) as (e & He & Hin).
  repeat split.
  - unfold Trace.trigger_calls in *. cbn. f_equal. exact Htrig.
  - exists e. split; [exact He |]. right. right. exact Hin.
  - intros u emergency sessions Hpost Hsess.
    unfold submit_report, requests_post. rewrite Hsess, Hpost.
    cbn [report_data]. rewrite Heq. cbn [Z.eqb Pos.eqb replies].
    unfold get at 2 3. rewrite Hs, Hsv. cbn [eq_str String.eqb Ascii.eqb Bool.eqb].
    rewrite orb_true_r. reflexivity.
Qed.

Lemma alert_failure_not_surfaced_witness :
  let data := Scenario.draft_located "Fire" "Critical" in
  let r := App.create_report Scenario.world_alert_down data in
  fst (fst r) = 201
  /\ Trace.trigger_calls (snd r) = 1%nat
  /\ In (EPrintAlertError (ExternalError "connection refused")) (snd r)
  /\ replies (submit_report Scenario.world_alert_down Scenario.alice false
                (Scenario.at_step step_photos data))
     = [Submitted (VStr "1A2B3C4D") (VStr "Fire") (VStr "Critical") true].
Proof.
  pose proof (alert_failure_not_surfaced
                Scenario.world_alert_down (Scenario.draft_located "Fire" "Critical")
                "1A2B3C4D"
                (Scenario.stored_row
                   {| id := "1A2B3C4D"; user_id := "7"; username := VStr "alice";
                      disaster_type := VStr "Fire"; severity := VStr "Critical";
                      latitude := 12.9%float; longitude := 77.6%float;
                      description := VStr ""; photos := "[]"; status := "Pending";
                      source := "Telegram Bot";
                      created_at := "2024-05-01T10:00:00";
                      updated_at := "2024-05-01T10:00:00" |})
                (StrOfExn (ExternalError "connection refused"))
                eq_refl eq_refl eq_refl) as (Hresp & Hcalls & _ & Hreply).
  cbv zeta. rewrite Hresp. split; [reflexivity |]. split; [exact Hcalls |].
  split; [vm_compute; auto 20 |].
  apply (Hreply Scenario.alice false); reflexivity.
Defined.

(** ** Submission from the dialog *)

Lemma store_failure_not_201 (w : world) (data : gmap string value) (err : error) :
  fst (SupabaseClient.create_report w data) = SupabaseClient.Failure err ->
  fst (fst (App.create_report w data)) = 400 \/ fst (fst (App.create_report w data)) = 500.
Proof.
  intros H. unfold App.create_report.
  destruct (App.missing_field data); [left; reflexivity |].
  destruct (SupabaseClient.create_report w data) as [[rid stored | err'] eff];
    [discriminate | right; reflexivity].
Qed.

(** C2 (as the code has it): when the store fails, the bot tells the user that
    the submission failed, and the session is deleted all the same, in the
    [finally] clause.  A second "Submit Report" finds no session: it is
    answered with the greeting and sends nothing to the backend, whatever the
    state of the store by then. *)
Theorem failed_submission_reported_and_session_cleared
    (w w' : world) (u : user) (emergency : bool)
    (sessions : gmap Z session) (sess : session) (err : error) :
  sessions !! tg_id u = Some sess ->
  fst (SupabaseClient.create_report w (report_data sess)) = SupabaseClient.Failure err ->
  let out := submit_report w u emergency sessions in
  (exists e, replies out = [SubmitError e])
  /\ user_sessions out = delete (tg_id u) sessions
  /\ handle_message w' u "Submit Report" (user_sessions out)
     = say (delete (tg_id u) sessions) [Greeting].
Proof.
  intros Hs Hfail. cbv zeta.
  assert (Hout : (exists e, replies (submit_report w u emergency sessions) = [SubmitError e])
                 /\ user_sessions (submit_report w u emergency sessions)
                    = delete (tg_id u) sessions).
  { unfold submit_report, requests_post. rewrite Hs.
    destruct (post_raises w) as [e |]; [split; [eexists |]; reflexivity |].
    pose proof (store_failure_not_201 _ _ _ Hfail) as Hcode.
    destruct (App.create_report w (report_data sess)) as [[code body] eff].
    cbn [fst] in Hcode.
    destruct Hcode as [-> | ->]; split; try eexists; reflexivity. }
  destruct Hout as [Hreply Hsessions]. repeat split; try assumption.
  rewrite Hsessions. unfold handle_message.
  cbn [String.eqb Ascii.eqb Bool.eqb]. rewrite lookup_delete_eq. reflexivity.
Qed.

Lemma failed_submission_reported_and_session_cleared_witness :
  let sessions := Scenario.at_step step_photos Scenario.draft_complete in
  let out := submit_report Scenario.world_store_down Scenario.alice false sessions in
  (exists e, replies out = [SubmitError e])
  /\ user_sessions out = delete 7 sessions
  /\ handle_message Scenario.world_up Scenario.alice "Submit Report" (user_sessions out)
     = say (delete 7 sessions) [Greeting].
Proof.
  apply (failed_submission_reported_and_session_cleared
           Scenario.world_store_down Scenario.world_up Scenario.alice false
           (Scenario.at_step step_photos Scenario.draft_complete)
           {| step := step_photos; report_data := Scenario.draft_complete |}
           (StrOfExn (ExternalError "connection refused"))).
  - reflexivity.
  - vm_compute. reflexivity.
Defined.

(** C2 (the claim fails): with a complete draft in the photos step and a
    store that refuses the insertion, "Submit Report" is answered with the
    error message and the session is gone; a second "Submit Report", sent
    when the store works again, is answered with the greeting and nothing is
    posted. *)
Lemma failed_submission_clears_session :
  let sessions := Scenario.at_step step_photos Scenario.draft_complete in
  let out :=
    handle Scenario.world_store_down Scenario.alice (Text "Submit Report") sessions in
  let retry :=
    handle Scenario.world_up Scenario.alice (Text "Submit Report") (user_sessions out) in
  length (Trace.inserted_reports (effects out)) = 1%nat
  /\ replies out = [SubmitError (ApiError 500)]
  /\ user_sessions out !! 7 = None
  /\ replies retry = [Greeting]
  /\ effects retry = [].
Proof. repeat split; vm_compute; reflexivity. Qed.

(** ** The standard path *)

Lemma run_app (w : world) (u : user) (first rest : list update)
    (sessions : gmap Z session) :
  user_sessions (run w u (first ++ rest) sessions)
  = user_sessions (run w u rest (user_sessions (run w u first sessions)))
  /\ effects (run w u (first ++ rest) sessions)
     = effects (run w u first sessions)
       ++ effects (run w u rest (user_sessions (run w u first sessions))).
Proof.
  revert sessions. induction first as [| upd first IH]; intros sessions.
  - split; reflexivity.
  - cbn [app run user_sessions effects].
    destruct (IH (user_sessions (handle w u upd sessions))) as [-> ->].
    split; [reflexivity | apply app_assoc].
Qed.

(** The photo step: each picture is appended, nothing else in the draft
    changes, nothing is sent. *)
Lemma photos_appended (w : world) (u : user)
    (pictures : list (list string * string * string)) :
  Forall (picture_fetched w) pictures ->
  forall (sessions : gmap Z session) (draft : gmap string value) (l : list value),
    sessions !! tg_id u = Some {| step := step_photos; report_data := draft |} ->
    get draft "photos" (VList []) = VList l ->
    (draft !! "photos" = None \/ draft !! "photos" = Some (VList l)) ->
    effects (run w u (map photo_update pictures) sessions) = []
    /\ exists draft',
         user_sessions (run w u (map photo_update pictures) sessions)
         = <[tg_id u := {| step := step_photos; report_data := draft' |}]> sessions
         /\ get draft' "photos" (VList []) = VList (l ++ map picture_entry pictures)
         /\ forall key, key <> "photos" -> draft' !! key = draft !! key.
Proof.
  induction 1 as [| [[smaller file_id] file_path] pictures Hget _ IH];
    intros sessions draft l Hs Hl Hph.
  - split; [reflexivity |]. exists draft. cbn [map run silent user_sessions].
    rewrite app_nil_r. split; [symmetry; apply insert_id; exact Hs |]. auto.
  - unfold picture_fetched in Hget. cbn [fst snd] in Hget.
    cbn [map run user_sessions effects photo_update fst snd handle].
    assert (Hone :
      handle_photo w u (smaller ++ [file_id]) sessions
      = say (<[tg_id u :=
                 {| step := step_photos;
                    report_data :=
                      <["photos" := VList (l ++ [photo_entry file_id file_path])]> draft |}]>
               sessions)
            [PhotoReceived (length (l ++ [photo_entry file_id file_path]))]).
    { unfold handle_photo. rewrite Hs. cbn [step report_data].
      case_decide; [| congruence]. rewrite last_snoc, Hget.
      destruct Hph as [Hnone | Hsome].
      - unfold get in Hl. rewrite Hnone in Hl. injection Hl as <-.
        rewrite Hnone. reflexivity.
      - rewrite Hsome. reflexivity. }
    rewrite Hone. cbn [say user_sessions effects app].
    edestruct (IH (<[tg_id u :=
                       {| step := step_photos;
                          report_data :=
                            <["photos" := VList (l ++ [photo_entry file_id file_path])]> draft |}]>
                     sessions))
      as (Heff & draft' & Hsess & Hphotos & Hframe).
    + apply lookup_insert_eq.
    + unfold get. rewrite lookup_insert_eq. reflexivity.
    + right. apply lookup_insert_eq.
    + split; [exact Heff |]. exists draft'. split; [| split].
      * rewrite Hsess. apply insert_insert_eq.
      * rewrite Hphotos. rewrite <- app_assoc. reflexivity.
      * intros key Hkey. rewrite (Hframe key Hkey).
        apply lookup_insert_ne. congruence.
Qed.

Lemma inserted_reports_app (first rest : list effect) :
  Trace.inserted_reports (first ++ rest)
  = Trace.inserted_reports first ++ Trace.inserted_reports rest.
Proof.
  induction first as [| e first IH]; [reflexivity |].
  destruct e; cbn; rewrite IH; reflexivity.
Qed.

Lemma route_inserts_row (w : world) (data : gmap string value) (row : db_row) :
  SupabaseClient.db_data w (uuid4_id w) data = inr row ->
  Trace.inserted_reports (snd (App.create_report w data)) = [row].
Proof.
  intros Hrow.
  destruct (route_inserts w data) as [Hnil | (row' & Hrow' & Hone)].
  - exfalso. revert Hnil. unfold App.create_report.
    destruct (db_data_inv _ _ _ _ Hrow)
      as (uid & lat_v & lng_v & Hu & Ht & Hs & Hla & _ & Hlo & _ & _).
    assert (Hm : App.missing_field data = None).
    { apply missing_field_None. unfold App.required_fields. simpl.
      intros field [<- | [<- | [<- | [<- | [<- | []]]]]]; eauto. }
    rewrite Hm. unfold SupabaseClient.create_report. rewrite Hrow.
    destruct (reports_insert w row) as [e | [| stored rest]]; try discriminate.
    unfold getitem. rewrite Hs. discriminate.
  - congruence.
Qed.

Lemma submit_report_trace (w : world) (u : user) (emergency : bool)
    (sessions : gmap Z session) (sess : session) :
  sessions !! tg_id u = Some sess ->
  post_raises w = None ->
  user_sessions (submit_report w u emergency sessions) = delete (tg_id u) sessions
  /\ Trace.inserted_reports (effects (submit_report w u emergency sessions))
     = Trace.inserted_reports (snd (App.create_report w (report_data sess))).
Proof.
  intros Hs Hpost. unfold submit_report, requests_post. rewrite Hs, Hpost.
  destruct (App.create_report w (report_data sess)) as [[code body] eff].
  destruct (Z.eqb code 201); cbn [user_sessions effects snd].
  - split; reflexivity.
  - split; [reflexivity |]. rewrite inserted_reports_app. cbn. apply app_nil_r.
Qed.

Lemma not_menu_text (text : string) :
  ~ In text menu_texts ->
  String.eqb text "🚨 Report Disaster" = false
  /\ String.eqb text "🆘 Emergency" = false
  /\ String.eqb text "ℹ️ Help" = false
  /\ String.eqb text "📊 My Reports" = false.
Proof.
  unfold menu_texts. intros H.
  repeat split; apply String.eqb_neq; intros ->; apply H; simpl; auto.
Qed.

(** What each update of the standard path does to the sender's session. *)
Section Steps.

Context (w : world) (u : user) (sessions : gmap Z session).

Lemma type_step (sess : session) (item : string) :
  In item DISASTER_TYPES ->
  let out :=
    handle w u (CallbackQuery (String.append "type_" item))
      (<[tg_id u := sess]> sessions) in
  effects out = []
  /\ user_sessions out
     = <[tg_id u := {| step := step_severity;
                       report_data :=
                         <["disaster_type" := VStr item]> (report_data sess) |}]>
         sessions.
Proof.
  intros Hin. destruct (type_selection_decoded _ Hin) as [H1 H2].
  cbv zeta. cbn [handle]. unfold button_callback.
  rewrite lookup_insert_eq, H1, H2. cbn [say user_sessions effects].
  split; [reflexivity | apply insert_insert_eq].
Qed.

Lemma severity_step (sess : session) (item : string) :
  In item SEVERITY_LEVELS ->
  let out :=
    handle w u (CallbackQuery (String.append "severity_" item))
      (<[tg_id u := sess]> sessions) in
  effects out = []
  /\ user_sessions out
     = <[tg_id u := {| step := step_location;
                       report_data :=
                         <["severity" := VStr item]> (report_data sess) |}]>
         sessions.
Proof.
  intros Hin. destruct (severity_selection_decoded _ Hin) as (H0 & H1 & H2).
  cbv zeta. cbn [handle]. unfold button_callback.
  rewrite lookup_insert_eq, H0, H1, H2. cbn [say user_sessions effects].
  split; [reflexivity | apply insert_insert_eq].
Qed.

Lemma location_step (sess : session) (lat lng : float) :
  let out := handle w u (Location lat lng) (<[tg_id u := sess]> sessions) in
  effects out = []
  /\ user_sessions out
     = <[tg_id u := {| step := step_description;
                       report_data :=
                         <["longitude" := VFloat lng]>
                           (<["latitude" := VFloat lat]> (report_data sess)) |}]>
         sessions.
Proof.
  cbv zeta. cbn [handle]. unfold handle_location. rewrite lookup_insert_eq.
  cbn [step]. case_decide; [discriminate |]. cbn [say user_sessions effects].
  split; [reflexivity | apply insert_insert_eq].
Qed.

Lemma description_step (draft : gmap string value) (text : string) :
  ~ In text menu_texts ->
  let out :=
    handle w u (Text text)
      (<[tg_id u := {| step := step_description; report_data := draft |}]> sessions) in
  effects out = []
  /\ user_sessions out
     = <[tg_id u := {| step := step_photos;
                       report_data :=
                         <["description" := VStr (described text)]> draft |}]>
         sessions.
Proof.
  intros Hmenu. destruct (not_menu_text _ Hmenu) as (Hm1 & Hm2 & Hm3 & Hm4).
  cbv zeta. cbn [handle]. unfold handle_message.
  rewrite Hm1, Hm2, Hm3, Hm4, lookup_insert_eq.
  cbn [step report_data]. case_decide; [| congruence].
  cbn [say user_sessions effects].
  split; [reflexivity | apply insert_insert_eq].
Qed.

(** The dialog up to the description: the draft holds what was sent, the
    step is ['photos'], nothing was posted. *)
Lemma standard_path_draft (dtype sev : string) (lat lng : float) (text : string) :
  In dtype DISASTER_TYPES ->
  In sev SEVERITY_LEVELS ->
  ~ In text menu_texts ->
  let out :=
    run w u
      [CommandReport;
       CallbackQuery (String.append "type_" dtype);
       CallbackQuery (String.append "severity_" sev);
       Location lat lng;
       Text text] sessions in
  effects out = []
  /\ user_sessions out
     = <[tg_id u :=
           {| step := step_photos;
              report_data :=
                <["description" := VStr (described text)]>
                  (<["longitude" := VFloat lng]>
                     (<["latitude" := VFloat lat]>
                        (<["severity" := VStr sev]>
                           (<["disaster_type" := VStr dtype]>
                              (<["timestamp" := VStr (now_iso w 0)]>
                                 (<["username" := username_value u]>
                                    (<["user_id" := VInt (tg_id u)]> ∅))))))) |}]>
         sessions.
Proof.
  intros Hd Hv Hmenu. cbv zeta.
  cbn [run silent user_sessions effects].
  change (user_sessions (handle w u CommandReport sessions))
    with (<[tg_id u :=
              {| step := step_disaster_type;
                 report_data :=
                   <["timestamp" := VStr (now_iso w 0)]>
                     (<["username" := username_value u]>
                        (<["user_id" := VInt (tg_id u)]> ∅)) |}]> sessions).
  change (effects (handle w u CommandReport sessions)) with (@nil effect).
  destruct (type_step
              {| step := step_disaster_type;
                 report_data :=
                   <["timestamp" := VStr (now_iso w 0)]>
                     (<["username" := username_value u]>
                        (<["user_id" := VInt (tg_id u)]> ∅)) |} dtype Hd) as [-> ->].
  cbn [report_data].
  match goal with |- context [handle w u (CallbackQuery (String.append "severity_" sev))
                                (<[tg_id u := ?s]> sessions)] =>
    destruct (severity_step s sev Hv) as [-> ->] end.
  cbn [report_data].
  match goal with |- context [handle w u (Location lat lng)
                                (<[tg_id u := ?s]> sessions)] =>
    destruct (location_step s lat lng) as [-> ->] end.
  cbn [report_data].
  match goal with |- context [handle w u (Text text)
                                (<[tg_id u := {| step := _; report_data := ?d |}]> sessions)] =>
    destruct (description_step d text Hmenu) as [-> ->] end.
  split; reflexivity.
Qed.

End Steps.

Lemma db_data_complete (w : world) (rid : string) (data : gmap string value)
    (uid dtype sev : value) (lat lng : float) :
  data !! "user_id" = Some uid ->
  data !! "disaster_type" = Some dtype ->
  data !! "severity" = Some sev ->
  data !! "latitude" = Some (VFloat lat) ->
  data !! "longitude" = Some (VFloat lng) ->
  SupabaseClient.db_data w rid data
  = inr {| id := rid;
           user_id := py_str (lib w) uid;
           username := get data "username" (VStr "Anonymous");
           disaster_type := dtype;
           severity := sev;
           latitude := lat;
           longitude := lng;
           description := get data "description" (VStr "");
           photos := json_dumps (lib w) (get data "photos" (VList []));
           status := "Pending";
           source := "Telegram Bot";
           created_at := now_iso w 0;
           updated_at := now_iso w 1 |}.
Proof.
  intros Hu Ht Hs Hla Hlo. unfold SupabaseClient.db_data, getitem.
  rewrite Hu, Ht, Hs, Hla, Hlo. reflexivity.
Qed.

(** C9: a dialog that follows the standard path (a listed disaster type, a
    listed severity, a location, a description text, any number of photos,
    "Submit Report") hands to the store exactly one report.  It carries the
    user, the selected type and severity, the coordinates, the description
    (the placeholder for "Skip Description"), the photos in the order sent,
    and the status "Pending".  The session is closed afterwards. *)
Theorem standard_path_report
    (w : world) (u : user) (sessions : gmap Z session)
    (dtype sev : string) (lat lng : float) (text : string)
    (pictures : list (list string * string * string)) :
  In dtype DISASTER_TYPES ->
  In sev SEVERITY_LEVELS ->
  ~ In text menu_texts ->
  Forall (picture_fetched w) pictures ->
  post_raises w = None ->
  let out := run w u (updates dtype sev lat lng text pictures) sessions in
  Trace.inserted_reports (effects out)
  = [ {| id := uuid4_id w;
         user_id := py_str (lib w) (VInt (tg_id u));
         username := username_value u;
         disaster_type := VStr dtype;
         severity := VStr sev;
         latitude := lat;
         longitude := lng;
         description := VStr (described text);
         photos := json_dumps (lib w) (VList (map picture_entry pictures));
         status := "Pending";
         source := "Telegram Bot";
         created_at := now_iso w 0;
         updated_at := now_iso w 1 |} ]
  /\ user_sessions out = delete (tg_id u) sessions.
Proof.
  intros Hd Hv Hmenu Hpics Hpost. cbv zeta. unfold updates.
  destruct (standard_path_draft w u sessions dtype sev lat lng text Hd Hv Hmenu)
    as [Heff0 Hs0]. cbv zeta in Heff0, Hs0.
  match type of Hs0 with _ = <[_ := {| step := _; report_data := ?d |}]> _ =>
    set (draft := d) in * end.
  match goal with |- context [run w u (?a ++ ?b) sessions] =>
    destruct (run_app w u a b sessions) as [-> ->] end.
  rewrite Heff0, Hs0. cbn [app].
  match goal with |- context [run w u (?a ++ ?b) ?S] =>
    destruct (run_app w u a b S) as [-> ->] end.
  destruct (photos_appended w u pictures Hpics
              (<[tg_id u := {| step := step_photos; report_data := draft |}]> sessions)
              draft [])
    as (Heff1 & draft' & Hs1 & Hphotos & Hframe).
  { apply lookup_insert_eq. }
  { reflexivity. }
  { left. reflexivity. }
  rewrite Heff1, Hs1, insert_insert_eq. cbn [app] in *.
  cbn [run handle silent user_sessions effects]. rewrite app_nil_r.
  unfold handle_message. cbn [String.eqb Ascii.eqb Bool.eqb].
  rewrite lookup_insert_eq. cbn [step]. case_decide; [discriminate |].
  destruct (submit_report_trace w u false
              (<[tg_id u := {| step := step_photos; report_data := draft' |}]> sessions)
              {| step := step_photos; report_data := draft' |})
    as [-> ->]; [apply lookup_insert_eq | exact Hpost |].
  split; [| apply delete_insert_eq].
  cbn [report_data]. apply route_inserts_row.
  rewrite (db_data_complete w (uuid4_id w) draft'
             (VInt (tg_id u)) (VStr dtype) (VStr sev) lat lng);
    try (rewrite Hframe by discriminate; reflexivity).
  unfold get at 1 2. rewrite !Hframe by discriminate. rewrite Hphotos.
  reflexivity.
Qed.

Lemma standard_path_report_witness :
  let out :=
    run Scenario.world_up Scenario.alice
      (updates "Flood" "High" 12.9%float 77.6%float "street flooded" []) ∅ in
  Trace.inserted_reports (effects out)
  = [ {| id := "1A2B3C4D";
         user_id := "7";
         username := VStr "alice";
         disaster_type := VStr "Flood";
         severity := VStr "High";
         latitude := 12.9%float;
         longitude := 77.6%float;
         description := VStr "street flooded";
         photos := "[]";
         status := "Pending";
         source := "Telegram Bot";
         created_at := "2024-05-01T10:00:00";
         updated_at := "2024-05-01T10:00:00" |} ]
  /\ user_sessions out = delete 7 ∅.
Proof.
  apply (standard_path_report Scenario.world_up Scenario.alice ∅
           "Flood" "High" 12.9%float 77.6%float "street flooded" []).
  - simpl. auto.
  - simpl. auto.
  - unfold menu_texts. simpl. intros H.
    repeat (destruct H as [H | H]; [discriminate |]). exact H.
  - constructor.
  - reflexivity.
Defined.

(** * Further properties of the dialog *)

Import Polling.

(** Unfolds the handler of an update and splits on every test it makes. *)
Ltac handler_cases :=
  cbn [handle];
  unfold handle_message, handle_location, handle_photo, button_callback;
  unfold start, help_command, start_report, emergency_report, show_user_reports,
    submit_report, requests_post, say, silent;
  repeat case_match; simplify_eq; cbn [user_sessions replies effects].

(** A handler writes only the session of the user the update comes from. *)
Lemma handle_frame
    (w : world) (u : user) (upd : update) (sessions : gmap Z session) (uid : Z) :
  uid <> tg_id u ->
  user_sessions (handle w u upd sessions) !! uid = sessions !! uid.
Proof.
  intros Hne. destruct upd; handler_cases;
    rewrite ?lookup_insert_ne, ?lookup_delete_ne by congruence; reflexivity.
Qed.

(** What a handler does depends on the sessions only through the session of
    the user the update comes from. *)
Lemma handle_local
    (w : world) (u : user) (upd : update) (sessions sessions' : gmap Z session) :
  sessions !! tg_id u = sessions' !! tg_id u ->
  user_sessions (handle w u upd sessions) !! tg_id u
  = user_sessions (handle w u upd sessions') !! tg_id u
  /\ replies (handle w u upd sessions) = replies (handle w u upd sessions')
  /\ effects (handle w u upd sessions) = effects (handle w u upd sessions').
Proof.
  intros Heq. destruct upd; cbn [handle];
    unfold handle_message, handle_location, handle_photo, button_callback;
    unfold start, help_command, start_report, emergency_report, show_user_reports,
      submit_report, requests_post, say, silent;
    rewrite <- ?Heq, ?lookup_insert_eq;
    repeat case_match; simplify_eq; cbn [user_sessions replies effects];
    rewrite ?lookup_insert_eq, ?lookup_delete_eq;
    repeat split; congruence.
Qed.

Lemma serve_local (arrivals : list incoming) (uid : Z) :
  forall sessions sessions' : gmap Z session,
    sessions !! uid = sessions' !! uid ->
    user_sessions (serve arrivals sessions) !! uid
    = user_sessions (serve (from_user uid arrivals) sessions') !! uid.
Proof.
  induction arrivals as [| a rest IH]; intros sessions sessions' Heq.
  - exact Heq.
  - cbn [serve from_user List.filter user_sessions].
    destruct (Z.eqb_spec (tg_id (sender a)) uid) as [<- | Hne].
    + cbn [serve user_sessions]. apply IH.
      apply (handle_local (during a) (sender a) (content a) _ _ Heq).
    + apply IH. rewrite handle_frame by congruence. exact Heq.
Qed.

(** X1: when the updates of several users arrive interleaved, the session of
    each user ends as if the updates of that user had arrived alone. *)
Theorem serve_isolated
    (arrivals : list incoming) (sessions : gmap Z session) (uid : Z) :
  user_sessions (serve arrivals sessions) !! uid
  = user_sessions (serve (from_user uid arrivals) sessions) !! uid.
Proof. apply serve_local. reflexivity. Qed.

Lemma alert_posts_nothing (w : world) (report : gmap string value) :
  Trace.posted (snd (SupabaseClient.trigger_emergency_alert w report)) = [].
Proof.
  unfold SupabaseClient.trigger_emergency_alert, SupabaseClient.alert_failed.
  repeat case_match; reflexivity.
Qed.

Lemma posted_app (first rest : list effect) :
  Trace.posted (first ++ rest) = Trace.posted first ++ Trace.posted rest.
Proof.
  induction first as [| e first IH]; [reflexivity |].
  destruct e; cbn; rewrite IH; reflexivity.
Qed.

Lemma route_posts_nothing (w : world) (data : gmap string value) :
  Trace.posted (snd (App.create_report w data)) = [].
Proof.
  unfold App.create_report, SupabaseClient.create_report.
  repeat case_match; simplify_eq; cbn [snd]; try reflexivity;
    rewrite ?posted_app; cbn; rewrite ?alert_posts_nothing; reflexivity.
Qed.

(** The trace of a submission: the draft is posted once, and the session is
    gone, whatever the backend answers. *)
Lemma submit_report_posts_draft (w : world) (u : user) (emergency : bool)
    (sessions : gmap Z session) (sess : session) :
  sessions !! tg_id u = Some sess ->
  Trace.posted (effects (submit_report w u emergency sessions)) = [report_data sess]
  /\ user_sessions (submit_report w u emergency sessions) = delete (tg_id u) sessions.
Proof.
  intros Hs. unfold submit_report, requests_post. rewrite Hs.
  pose proof (route_posts_nothing w (report_data sess)) as Hroute.
  repeat case_match; simplify_eq; cbn [user_sessions effects snd] in *;
    rewrite ?posted_app; cbn; rewrite ?Hroute; auto.
Qed.

(** X2: an update that does not open a dialog, from a user without a session,
    changes no session and posts nothing; a button press and a location are
    answered "session expired", a photo is not answered, a text other than
    the menu's is answered with the greeting. *)
Theorem no_session_no_progress
    (w : world) (u : user) (upd : update) (sessions : gmap Z session) :
  sessions !! tg_id u = None ->
  opens_dialog upd = false ->
  user_sessions (handle w u upd sessions) = sessions
  /\ Trace.posted (effects (handle w u upd sessions)) = []
  /\ match upd with
     | CallbackQuery _ | Location _ _ =>
         replies (handle w u upd sessions) = [SessionExpired]
     | Photo _ => replies (handle w u upd sessions) = []
     | Text text =>
         text = "ℹ️ Help" \/ text = "📊 My Reports"
         \/ replies (handle w u upd sessions) = [Greeting]
     | _ => True
     end.
Proof.
  intros Hnone Hopen. destruct upd; cbn [opens_dialog] in Hopen;
    try discriminate; try apply orb_false_elim in Hopen as [H1 H2];
    cbn [handle];
    unfold handle_message, handle_location, handle_photo, button_callback;
    unfold start, help_command, show_user_reports, say, silent;
    rewrite ?Hnone, ?H1, ?H2;
    repeat case_match; simplify_eq; cbn [user_sessions replies effects];
    repeat split; auto.
  - left. apply String.eqb_eq. assumption.
  - right. left. apply String.eqb_eq. assumption.
  - right. left. apply String.eqb_eq. assumption.
  - right. left. apply String.eqb_eq. assumption.
  - right. left. apply String.eqb_eq. assumption.
Qed.

Lemma no_session_no_progress_witness :
  let out := handle Scenario.world_up Scenario.alice (Location 12.9%float 77.6%float) ∅ in
  user_sessions out = ∅
  /\ Trace.posted (effects out) = []
  /\ replies out = [SessionExpired].
Proof.
  apply (no_session_no_progress Scenario.world_up Scenario.alice
           (Location 12.9%float 77.6%float) ∅); reflexivity.
Defined.

(** X3: no update other than the text "Submit Report" posts to the backend,
    hands a row to a table or calls the alert trigger.  The only other call
    to the backend is the request for the user's reports, made by [/status]
    and by the menu text for the reports (followed by the logged error when
    it fails); every other update makes no call at all. *)
Theorem only_submit_reaches_backend
    (w : world) (u : user) (upd : update) (sessions : gmap Z session) :
  upd <> Text "Submit Report" ->
  let eff := effects (handle w u upd sessions) in
  Trace.posted eff = []
  /\ Trace.inserted_reports eff = []
  /\ Trace.trigger_calls eff = 0%nat
  /\ (eff = []
      \/ ((upd = CommandStatus \/ upd = Text "📊 My Reports")
          /\ (eff = [EHttpGet (tg_id u)]
              \/ exists e, eff = [EHttpGet (tg_id u); ELoggerError e]))).
Proof.
  intros Hupd. cbv zeta. destruct upd; handler_cases;
    try (exfalso;
         match goal with
         | H : String.eqb _ "Submit Report" = true |- _ =>
             apply String.eqb_eq in H; congruence
         end);
    (split; [reflexivity |]); (split; [reflexivity |]); (split; [reflexivity |]);
    try (left; reflexivity);
    right; (split; [| eauto]);
    try (left; reflexivity);
    right;
    match goal with
    | H : String.eqb _ "📊 My Reports" = true |- _ =>
        apply String.eqb_eq in H; subst; reflexivity
    end.
Qed.

Lemma only_submit_reaches_backend_witness :
  let eff :=
    effects (handle Scenario.world_up Scenario.alice CommandStatus
               (Scenario.at_step step_photos Scenario.draft_complete)) in
  Trace.posted eff = []
  /\ Trace.inserted_reports eff = []
  /\ Trace.trigger_calls eff = 0%nat
  /\ eff = [EHttpGet 7].
Proof.
  assert (Hne : CommandStatus <> Text "Submit Report") by discriminate.
  destruct (only_submit_reaches_backend Scenario.world_up Scenario.alice
              CommandStatus
              (Scenario.at_step step_photos Scenario.draft_complete) Hne)
    as (Hposted & Hinserted & Hcalls & _).
  cbv zeta. split; [exact Hposted |]. split; [exact Hinserted |].
  split; [exact Hcalls | reflexivity].
Defined.

(** X4: outside the description step, the text "Submit Report" posts the
    draft as it stands, once, and removes the session whatever the backend
    answers; in the description step it is taken as the description and
    nothing is posted. *)
Theorem submit_posts_draft_and_closes
    (w : world) (u : user) (sessions : gmap Z session) (sess : session) :
  sessions !! tg_id u = Some sess ->
  let out := handle w u (Text "Submit Report") sessions in
  if decide (step sess = step_description)
  then effects out = []
       /\ user_sessions out
          = <[tg_id u := {| step := step_photos;
                            report_data :=
                              <["description" := VStr "Submit Report"]>
                                (report_data sess) |}]> sessions
  else Trace.posted (effects out) = [report_data sess]
       /\ user_sessions out = delete (tg_id u) sessions.
Proof.
  intros Hs. cbv zeta. cbn [handle]. unfold handle_message.
  cbn [String.eqb Ascii.eqb Bool.eqb]. rewrite Hs.
  case_decide.
  - split; reflexivity.
  - apply submit_report_posts_draft. exact Hs.
Qed.

Lemma submit_posts_draft_and_closes_witness :
  let sessions := Scenario.at_step step_severity (Scenario.draft_selected "Flood" "High") in
  let out := handle Scenario.world_up Scenario.alice (Text "Submit Report") sessions in
  Trace.posted (effects out) = [Scenario.draft_selected "Flood" "High"]
  /\ user_sessions out = delete 7 sessions.
Proof.
  apply (submit_posts_draft_and_closes Scenario.world_up Scenario.alice
           (Scenario.at_step step_severity (Scenario.draft_selected "Flood" "High"))
           {| step := step_severity;
              report_data := Scenario.draft_selected "Flood" "High" |}
           eq_refl).
Defined.

(** X5: a session is removed only by a submission: if the sender has a
    session before an update and none after it, the update is the text
    "Submit Report" and the session was not in the description step. *)
Theorem session_ends_only_by_submit
    (w : world) (u : user) (upd : update) (sessions : gmap Z session)
    (sess : session) :
  sessions !! tg_id u = Some sess ->
  user_sessions (handle w u upd sessions) !! tg_id u = None ->
  upd = Text "Submit Report" /\ step sess <> step_description.
Proof.
  intros Hs. destruct upd; handler_cases;
    rewrite ?lookup_insert_eq; try congruence.
  all: intros _; split; [| congruence];
    match goal with
    | H : String.eqb _ "Submit Report" = true |- _ =>
        apply String.eqb_eq in H; subst; reflexivity
    end.
Qed.

Lemma session_ends_only_by_submit_witness :
  let sessions := Scenario.at_step step_photos Scenario.draft_complete in
  user_sessions
    (handle Scenario.world_store_down Scenario.alice (Text "Submit Report") sessions)
  !! 7 = None
  /\ Text "Submit Report" = Text "Submit Report"
  /\ step_photos <> step_description.
Proof.
  split; [reflexivity |].
  apply (session_ends_only_by_submit Scenario.world_store_down Scenario.alice
           (Text "Submit Report")
           (Scenario.at_step step_photos Scenario.draft_complete)
           {| step := step_photos; report_data := Scenario.draft_complete |});
    reflexivity.
Defined.

Lemma handle_keeps_key
    (w : world) (u : user) (upd : update) (sessions : gmap Z session) :
  keyed_by_user sessions -> keyed_by_user (user_sessions (handle w u upd sessions)).
Proof.
  intros Hkey uid sess. destruct (decide (uid = tg_id u)) as [-> | Hne].
  - destruct upd; handler_cases;
      rewrite ?lookup_insert_eq, ?lookup_delete_eq;
      intros Hl; simplify_eq; cbn [report_data];
      rewrite ?lookup_insert_ne by discriminate;
      rewrite ?lookup_insert_eq; eauto.
  - rewrite handle_frame by exact Hne. apply Hkey.
Qed.

Lemma handle_posted_by_sender
    (w : world) (u : user) (upd : update) (sessions : gmap Z session)
    (json : gmap string value) :
  keyed_by_user sessions ->
  In json (Trace.posted (effects (handle w u upd sessions))) ->
  json !! "user_id" = Some (VInt (tg_id u)).
Proof.
  intros Hkey. destruct upd as [| | | | | | | | text];
    try solve [handler_cases; cbn [Trace.posted In]; contradiction].
  destruct (String.eqb_spec text "Submit Report") as [-> | Hne].
  - cbn [handle]. unfold handle_message. cbn [String.eqb Ascii.eqb Bool.eqb].
    destruct (sessions !! tg_id u) as [sess |] eqn:Hs;
      [| cbn [say effects Trace.posted In]; contradiction].
    case_decide; [cbn [say effects Trace.posted In]; contradiction |].
    destruct (submit_report_posts_draft w u false sessions sess Hs) as [-> _].
    intros [<- | []]. apply Hkey. exact Hs.
  - handler_cases; cbn [Trace.posted In]; try contradiction.
    all: match goal with
         | H : String.eqb _ "Submit Report" = true |- _ =>
             apply String.eqb_eq in H; congruence
         end.
Qed.

(** X6: every session is filed under the user id of its draft, and this
    stays so whatever updates arrive from whatever users; hence every body
    posted to the backend carries the id of the user who sent the
    submission. *)
Theorem drafts_belong_to_their_senders
    (arrivals : list incoming) (sessions : gmap Z session) :
  keyed_by_user sessions ->
  keyed_by_user (user_sessions (serve arrivals sessions))
  /\ forall json,
       In json (Trace.posted (effects (serve arrivals sessions))) ->
       exists a, In a arrivals
                 /\ json !! "user_id" = Some (VInt (tg_id (sender a))).
Proof.
  revert sessions. induction arrivals as [| a rest IH]; intros sessions Hkey.
  - split; [exact Hkey | cbn [serve silent effects Trace.posted In]; contradiction].
  - cbn [serve user_sessions effects].
    pose proof (handle_keeps_key (during a) (sender a) (content a) _ Hkey) as Hkey'.
    destruct (IH _ Hkey') as [Hkeys Hposted]. split; [exact Hkeys |].
    intros json. rewrite posted_app. intros Hin.
    apply in_app_or in Hin as [Hin | Hin].
    + exists a. split; [left; reflexivity |].
      exact (handle_posted_by_sender _ _ _ _ _ Hkey Hin).
    + destruct (Hposted json Hin) as (b & Hb & Hid).
      exists b. split; [right; exact Hb | exact Hid].
Qed.

Lemma drafts_belong_to_their_senders_witness :
  keyed_by_user
    (user_sessions
       (serve [ {| during := Scenario.world_up; sender := Scenario.alice;
                   content := CommandReport |} ] ∅)).
Proof.
  apply (drafts_belong_to_their_senders
           [ {| during := Scenario.world_up; sender := Scenario.alice;
                content := CommandReport |} ] ∅).
  intros uid sess Hl. rewrite lookup_empty in Hl. discriminate.
Defined.

Lemma run_local (w : world) (u : user) (upds : list update) :
  forall sessions sessions' : gmap Z session,
    sessions !! tg_id u = sessions' !! tg_id u ->
    user_sessions (run w u upds sessions) !! tg_id u
    = user_sessions (run w u upds sessions') !! tg_id u
    /\ replies (run w u upds sessions) = replies (run w u upds sessions')
    /\ effects (run w u upds sessions) = effects (run w u upds sessions').
Proof.
  induction upds as [| upd rest IH]; intros sessions sessions' Heq.
  - cbn. auto.
  - cbn [run user_sessions replies effects].
    destruct (handle_local w u upd _ _ Heq) as (Hs & -> & ->).
    destruct (IH _ _ Hs) as (-> & -> & ->). auto.
Qed.

(** X7: a [/report] makes the earlier dialog irrelevant: whatever the user
    sent before it, the dialog that follows goes as it would have gone without
    those updates: same session for the user, same replies, same calls to the
    backend. *)
Theorem report_forgets_the_past
    (w : world) (u : user) (before after : list update)
    (sessions : gmap Z session) :
  let past := user_sessions (run w u before sessions) in
  user_sessions (run w u (CommandReport :: after) past) !! tg_id u
  = user_sessions (run w u (CommandReport :: after) sessions) !! tg_id u
  /\ replies (run w u (CommandReport :: after) past)
     = replies (run w u (CommandReport :: after) sessions)
  /\ effects (run w u (CommandReport :: after) past)
     = effects (run w u (CommandReport :: after) sessions).
Proof.
  cbv zeta. cbn [run handle user_sessions replies effects].
  assert (Hfresh :
    user_sessions (start_report w u (user_sessions (run w u before sessions)))
    !! tg_id u
    = user_sessions (start_report w u sessions) !! tg_id u).
  { unfold start_report. cbn [say user_sessions].
    rewrite !lookup_insert_eq. reflexivity. }
  destruct (run_local w u after _ _ Hfresh) as (-> & -> & ->).
  repeat split; reflexivity.
Qed.

(** ** The keyboards *)

Lemma pairs_ind {A : Type} (P : list A -> Prop) :
  P [] ->
  (forall a, P [a]) ->
  (forall a b l, P l -> P (a :: b :: l)) ->
  forall l, P l.
Proof.
  intros Hnil Hone Hcons l.
  assert (H : P l /\ forall a, P (a :: l)).
  { induction l as [| b l [IH1 IH2]]; [split; auto |].
    split; [apply IH2 |]. intros a. apply Hcons. exact IH1. }
  apply H.
Qed.

(** X8: the keyboard loop lays the items out in their order, one button per
    item with the prefix before the item in its callback data, two buttons
    per row; only the last row can hold a single button, when the number of
    items is odd. *)
Theorem inline_rows_layout (pfx : string) (items : list string) :
  concat (inline_rows pfx items)
  = map (fun item =>
           {| button_text := item; callback_data := String.append pfx item |})
        items
  /\ length (inline_rows pfx items) = Nat.div2 (S (length items))
  /\ (forall i row,
        inline_rows pfx items !! i = Some row ->
        length row = 2%nat
        \/ (length row = 1%nat
            /\ S i = length (inline_rows pfx items)
            /\ Nat.odd (length items) = true)).
Proof.
  induction items as [| a | a b items (IHc & IHl & IHr)] using pairs_ind.
  - repeat split; try reflexivity. intros i row H. destruct i; discriminate.
  - repeat split; try reflexivity. intros [| i] row H; [| destruct i; discriminate].
    injection H as <-. right. auto.
  - cbn [inline_rows]. split; [| split].
    + cbn [concat app map]. rewrite IHc. reflexivity.
    + cbn [length Nat.div2]. rewrite IHl. reflexivity.
    + intros [| i] row H.
      * injection H as <-. left. reflexivity.
      * cbn in H. destruct (IHr i row H) as [H2 | (H1 & Hlast & Hodd)]; [left; exact H2 |].
        right. split; [exact H1 |]. split.
        -- cbn [length]. rewrite <- Hlast. reflexivity.
        -- exact Hodd.
Qed.

(** X9: the buttons that the bot offers select what they show.  A press on
    any button of the keyboard sent by [/report] stores the text of the
    button as the disaster type and moves to the severity step; a press on
    any button of the keyboard sent after a type selection stores the text of
    the button as the severity and moves to the location step. *)
Theorem offered_buttons_select_their_text
    (w : world) (u : user) (sessions : gmap Z session) (sess : session)
    (row : list button) (b : button) :
  sessions !! tg_id u = Some sess ->
  In b row ->
  (forall kb earlier,
     In (AskDisasterType kb) (replies (start_report w u earlier)) ->
     In row kb ->
     user_sessions (button_callback u (callback_data b) sessions)
     = <[tg_id u := {| step := step_severity;
                       report_data :=
                         <["disaster_type" := VStr (button_text b)]>
                           (report_data sess) |}]> sessions)
  /\ (forall kb earlier data dtype,
        In (AskSeverity dtype kb) (replies (button_callback u data earlier)) ->
        In row kb ->
        user_sessions (button_callback u (callback_data b) sessions)
        = <[tg_id u := {| step := step_location;
                          report_data :=
                            <["severity" := VStr (button_text b)]>
                              (report_data sess) |}]> sessions).
Proof.
  intros Hs Hb. split.
  - intros kb earlier Hkb Hrow.
    unfold start_report in Hkb. cbn [say replies In] in Hkb.
    destruct Hkb as [[= <-] | []].
    cbn in Hrow.
    repeat (destruct Hrow as [<- | Hrow];
            [cbn in Hb;
             repeat (destruct Hb as [<- | Hb];
                     [unfold button_callback; rewrite Hs; reflexivity |]);
             destruct Hb |]).
    destruct Hrow.
  - intros kb earlier data dtype Hkb Hrow.
    assert (Hkb' : kb = inline_rows "severity_" SEVERITY_LEVELS).
    { unfold button_callback in Hkb.
      repeat case_match; cbn [say silent replies In] in Hkb;
        intuition congruence. }
    subst kb. cbn in Hrow.
    repeat (destruct Hrow as [<- | Hrow];
            [cbn in Hb;
             repeat (destruct Hb as [<- | Hb];
                     [unfold button_callback; rewrite Hs; reflexivity |]);
             destruct Hb |]).
    destruct Hrow.
Qed.

Lemma offered_buttons_select_their_text_witness :
  let sessions := Scenario.at_step step_disaster_type Scenario.draft_new in
  let b := {| button_text := "Fire"; callback_data := "type_Fire" |} in
  user_sessions (button_callback Scenario.alice (callback_data b) sessions)
  = <[7 := {| step := step_severity;
              report_data := <["disaster_type" := VStr "Fire"]> Scenario.draft_new |}]>
      sessions.
Proof.
  apply (proj1 (offered_buttons_select_their_text
                  Scenario.world_up Scenario.alice
                  (Scenario.at_step step_disaster_type Scenario.draft_new)
                  {| step := step_disaster_type; report_data := Scenario.draft_new |}
                  [ {| button_text := "Fire"; callback_data := "type_Fire" |};
                    {| button_text := "Landslide"; callback_data := "type_Landslide" |} ]
                  {| button_text := "Fire"; callback_data := "type_Fire" |}
                  eq_refl (or_introl eq_refl))
           (inline_rows "type_" DISASTER_TYPES) ∅).
  - left. reflexivity.
  - right. left. reflexivity.
Defined.

(** * Further properties of the backend *)

(** X10: a request that has the five required keys but whose latitude or
    longitude [float] refuses (null, a list, an object, a text that is not a
    number) is answered 500; no row is handed to the table and no alert is
    triggered. *)
Theorem unconvertible_coordinate_rejected
    (w : world) (data : gmap string value) (key : string) (v : value) (e : exn) :
  App.missing_field data = None ->
  key = "latitude" \/ key = "longitude" ->
  data !! key = Some v ->
  py_float (lib w) v = inl e ->
  exists e', App.create_report w data = ((500, App.JsonError (StrOfExn e')), []).
Proof.
  intros Hm Hkey Hv He.
  pose proof (proj1 (missing_field_None data) Hm) as Hall.
  unfold App.create_report, SupabaseClient.create_report. rewrite Hm.
  destruct (SupabaseClient.db_data w (uuid4_id w) data) as [e' | row] eqn:Hrow.
  - exists e'. reflexivity.
  - exfalso.
    destruct (db_data_inv _ _ _ _ Hrow)
      as (_ & lat_v & lng_v & _ & _ & _ & Hla & Hfla & Hlo & Hflo & _).
    destruct Hkey as [-> | ->]; congruence.
Qed.

Lemma unconvertible_coordinate_rejected_witness :
  let data := <["latitude" := VNone]> (Scenario.draft_located "Flood" "High") in
  exists e',
    App.create_report Scenario.world_up data
    = ((500, App.JsonError (StrOfExn e')), []).
Proof.
  apply (unconvertible_coordinate_rejected Scenario.world_up
           (<["latitude" := VNone]> (Scenario.draft_located "Flood" "High"))
           "latitude" VNone TypeError).
  - reflexivity.
  - left. reflexivity.
  - reflexivity.
  - reflexivity.
Defined.

(** X11: [trigger_emergency_alert] needs the keys [id], [severity],
    [latitude], [longitude] and [disaster_type] in the report it is given.
    When one is absent nothing is inserted into the alert table: the
    [KeyError] of the first absent key, in this order, is printed and
    returned as a failure. *)
Theorem alert_needs_report_fields
    (w : world) (report : gmap string value) (key : string) :
  In key ["id"; "severity"; "latitude"; "longitude"; "disaster_type"] ->
  report !! key = None ->
  exists before absent after,
    ["id"; "severity"; "latitude"; "longitude"; "disaster_type"]
    = before ++ absent :: after
    /\ Forall (fun k => is_Some (report !! k)) before
    /\ report !! absent = None
    /\ SupabaseClient.trigger_emergency_alert w report
       = (SupabaseClient.AlertFailure (StrOfExn (KeyError absent)),
          [EPrintAlertError (KeyError absent)]).
Proof.
  intros Hin Hnone.
  unfold SupabaseClient.trigger_emergency_alert, SupabaseClient.alert_data,
    SupabaseClient.alert_failed, getitem, ok, raise.
  destruct (report !! "id") eqn:H1;
    [| exists [], "id", ["severity"; "latitude"; "longitude"; "disaster_type"];
       repeat split; [constructor | exact H1] ].
  destruct (report !! "severity") eqn:H2;
    [| exists ["id"], "severity", ["latitude"; "longitude"; "disaster_type"];
       repeat split; [repeat constructor; rewrite H1; eauto | exact H2] ].
  destruct (report !! "latitude") eqn:H3;
    [| exists ["id"; "severity"], "latitude", ["longitude"; "disaster_type"];
       repeat split;
       [repeat constructor; rewrite ?H1, ?H2; eauto | exact H3] ].
  destruct (report !! "longitude") eqn:H4;
    [| exists ["id"; "severity"; "latitude"], "longitude", ["disaster_type"];
       repeat split;
       [repeat constructor; rewrite ?H1, ?H2, ?H3; eauto | exact H4] ].
  destruct (report !! "disaster_type") eqn:H5;
    [| exists ["id"; "severity"; "latitude"; "longitude"], "disaster_type", [];
       repeat split;
       [repeat constructor; rewrite ?H1, ?H2, ?H3, ?H4; eauto | exact H5] ].
  exfalso. cbn in Hin.
  repeat (destruct Hin as [<- | Hin]; [congruence |]). exact Hin.
Qed.

Lemma alert_needs_report_fields_witness :
  let report := delete "longitude" (Scenario.stored_row
      {| id := "1A2B3C4D"; user_id := "7"; username := VStr "alice";
         disaster_type := VStr "Fire"; severity := VStr "Critical";
         latitude := 12.9%float; longitude := 77.6%float;
         description := VStr ""; photos := "[]"; status := "Pending";
         source := "Telegram Bot";
         created_at := "2024-05-01T10:00:00";
         updated_at := "2024-05-01T10:00:00" |}) in
  report !! "longitude" = None
  /\ SupabaseClient.trigger_emergency_alert Scenario.world_up report
     = (SupabaseClient.AlertFailure (StrOfExn (KeyError "longitude")),
        [EPrintAlertError (KeyError "longitude")]).
Proof.
  cbv zeta. split; [reflexivity |].
  destruct (alert_needs_report_fields Scenario.world_up
              (delete "longitude" (Scenario.stored_row
                 {| id := "1A2B3C4D"; user_id := "7"; username := VStr "alice";
                    disaster_type := VStr "Fire"; severity := VStr "Critical";
                    latitude := 12.9%float; longitude := 77.6%float;
                    description := VStr ""; photos := "[]"; status := "Pending";
                    source := "Telegram Bot";
                    created_at := "2024-05-01T10:00:00";
                    updated_at := "2024-05-01T10:00:00" |}))
              "longitude")
    as (before & absent & after & Hsplit & Hbefore & Habsent & Hr).
  - cbn. auto.
  - reflexivity.
  - assert (Hname : absent = "longitude").
    { apply (first_failing_unique _ before ["id"; "severity"; "latitude"]
               after ["disaster_type"] absent "longitude" (eq_sym Hsplit) Hbefore).
      - rewrite Habsent. intros [v Hv]. discriminate Hv.
      - repeat constructor; eexists; reflexivity.
      - intros [v Hv]. discriminate Hv. }
    rewrite Hname in Hr. exact Hr.
Defined.

(** X12: with the five keys present the alert row mirrors the report: its
    report id, severity, disaster type and description come from the report
    (the description defaults to the empty text), and it is handed to the
    alert table exactly once, before anything is printed. *)
Theorem alert_row_mirrors_report
    (w : world) (report : gmap string value) (rid sev lat lng dtype : value) :
  report !! "id" = Some rid ->
  report !! "severity" = Some sev ->
  report !! "latitude" = Some lat ->
  report !! "longitude" = Some lng ->
  report !! "disaster_type" = Some dtype ->
  exists rest,
    snd (SupabaseClient.trigger_emergency_alert w report)
    = EInsertAlert
        {| report_id := rid;
           alert_type := "Critical Disaster Report";
           alert_severity := sev;
           alert_location :=
             String.append (py_str (lib w) lat)
               (String.append ", " (py_str (lib w) lng));
           alert_disaster_type := dtype;
           alert_description := get report "description" (VStr "");
           alert_status := "Active";
           alert_created_at := now_iso w 0 |}
        :: rest
    /\ forall row, ~ In (EInsertAlert row) rest.
Proof.
  intros H1 H2 H3 H4 H5.
  unfold SupabaseClient.trigger_emergency_alert, SupabaseClient.alert_data,
    SupabaseClient.alert_failed, SupabaseClient.alert_banner, getitem, ok, raise.
  rewrite H1, H2, H3, H4, H5.
  repeat case_match; simplify_eq; cbn [snd]; eexists; (split; [reflexivity |]);
    intros row Hin; cbn in Hin; intuition discriminate.
Qed.

Lemma alert_row_mirrors_report_witness :
  let report := <["id" := VStr "1A2B3C4D"]> (Scenario.draft_located "Fire" "Critical") in
  exists rest,
    snd (SupabaseClient.trigger_emergency_alert Scenario.world_up report)
    = EInsertAlert
        {| report_id := VStr "1A2B3C4D";
           alert_type := "Critical Disaster Report";
           alert_severity := VStr "Critical";
           alert_location :=
             String.append (py_str (lib Scenario.world_up) (VFloat 12.9%float))
               (String.append ", " (py_str (lib Scenario.world_up) (VFloat 77.6%float)));
           alert_disaster_type := VStr "Fire";
           alert_description := get report "description" (VStr "");
           alert_status := "Active";
           alert_created_at := now_iso Scenario.world_up 0 |}
        :: rest
    /\ forall row, ~ In (EInsertAlert row) rest.
Proof.
  apply (alert_row_mirrors_report Scenario.world_up
           (<["id" := VStr "1A2B3C4D"]> (Scenario.draft_located "Fire" "Critical"))
           (VStr "1A2B3C4D") (VStr "Critical") (VFloat 12.9%float)
           (VFloat 77.6%float) (VStr "Fire")); reflexivity.
Defined.

(** X13: submitting before the draft is complete loses the draft.  When a
    required field is still missing and the backend is reachable, the text
    "Submit Report" (outside the description step) is answered with the error
    for status 400, nothing is handed to the table, and the session is
    deleted. *)
Theorem premature_submit_loses_draft
    (w : world) (u : user) (sessions : gmap Z session) (sess : session)
    (field : string) :
  sessions !! tg_id u = Some sess ->
  step sess <> step_description ->
  App.missing_field (report_data sess) = Some field ->
  post_raises w = None ->
  let out := handle w u (Text "Submit Report") sessions in
  replies out = [SubmitError (ApiError 400)]
  /\ Trace.inserted_reports (effects out) = []
  /\ user_sessions out = delete (tg_id u) sessions.
Proof.
  intros Hs Hstep Hm Hpost. cbv zeta. cbn [handle]. unfold handle_message.
  cbn [String.eqb Ascii.eqb Bool.eqb]. rewrite Hs.
  case_decide; [contradiction |].
  unfold submit_report, requests_post, App.create_report.
  rewrite Hs, Hpost, Hm. cbn. auto.
Qed.

Lemma premature_submit_loses_draft_witness :
  let sessions := Scenario.at_step step_severity Scenario.draft_new in
  let out := handle Scenario.world_up Scenario.alice (Text "Submit Report") sessions in
  replies out = [SubmitError (ApiError 400)]
  /\ Trace.inserted_reports (effects out) = []
  /\ user_sessions out = delete 7 sessions.
Proof.
  apply (premature_submit_loses_draft Scenario.world_up Scenario.alice
           (Scenario.at_step step_severity Scenario.draft_new)
           {| step := step_severity; report_data := Scenario.draft_new |}
           "disaster_type").
  - reflexivity.
  - discriminate.
  - reflexivity.
  - reflexivity.
Defined.

(** * Properties of the reading routes *)

(** X14: a status update reaches the table only when the body's status is
    one of the texts "Pending", "In Progress", "Resolved", "Cancelled".  Any
    other value, an empty one and a missing one are answered 400 without a
    call to the table.  A listed status is written once, with the time of the
    update, under the id of the route; the answer is 200 with the first row
    that the table returns, and 404 when it returns none or raises. *)
Theorem status_update_validated
    (w : world) (t : tables) (report_id : string) (data : gmap string value) :
  let out := Routes.update_report_status w t report_id data in
  match data !! "status" with
  | Some (VStr s) =>
      if Vocabulary.listed s Routes.valid_statuses
      then
        let changes :=
          <["updated_at" := VStr (now_iso w 0)]> (<["status" := VStr s]> ∅) in
        snd out = [DbUpdate changes report_id]
        /\ match reports_update t changes report_id with
           | InsertData (row :: _) => fst out = (200, Routes.JsonUpdated row)
           | _ => fst (fst out) = 404
           end
      else fst (fst out) = 400 /\ snd out = []
  | _ => fst (fst out) = 400 /\ snd out = []
  end.
Proof.
  cbv zeta. unfold Routes.update_report_status, get.
  destruct (data !! "status") as [[| b | n | f | s | l | d] |];
    cbn [eq_str existsb Routes.valid_statuses];
    rewrite ?orb_true_r; try (split; reflexivity).
  unfold Vocabulary.listed. cbn [existsb Routes.valid_statuses].
  destruct (String.eqb s "Pending" || (String.eqb s "In Progress"
            || (String.eqb s "Resolved" || (String.eqb s "Cancelled" || false))))
    eqn:Hlisted.
  - assert (Hne : String.eqb s "" = false).
    { destruct (String.eqb_spec s "") as [-> | Hne]; [discriminate | reflexivity]. }
    cbn [Routes.truthy]. rewrite Hne. cbn [negb orb].
    unfold ReportQueries.update_report_status, ReportQueries.first_row.
    destruct (reports_update t _ report_id) as [e | [| row rest]];
      split; reflexivity.
  - rewrite orb_true_r. split; reflexivity.
Qed.

(** X15: the two routes that address one report answer 404, not 500, when
    the table raises: a failure of the table cannot be told from an unknown
    id by the status code. *)
Theorem table_error_answered_404
    (w : world) (t : tables) (report_id : string) (e : exn) :
  (forall q, reports_select t q = InsertRaises e) ->
  (forall changes, reports_update t changes report_id = InsertRaises e) ->
  fst (Routes.get_report t report_id) = (404, Routes.JsonError (StrOfExn e))
  /\ forall data s,
       data !! "status" = Some (VStr s) ->
       In s Routes.valid_statuses ->
       fst (Routes.update_report_status w t report_id data)
       = (404, Routes.JsonError (StrOfExn e)).
Proof.
  intros Hsel Hupd. split.
  - unfold Routes.get_report, ReportQueries.get_report_by_id. rewrite Hsel. reflexivity.
  - intros data s Hs Hin.
    unfold Routes.update_report_status, get,
      ReportQueries.update_report_status. rewrite Hs, Hupd.
    cbn in Hin. repeat (destruct Hin as [<- | Hin]; [reflexivity |]). destruct Hin.
Qed.

Lemma table_error_answered_404_witness :
  fst (Routes.get_report Shelf.unreachable "1A2B3C4D")
  = (404, Routes.JsonError (StrOfExn (ExternalError "connection refused"))).
Proof.
  apply (table_error_answered_404 Scenario.world_up Shelf.unreachable "1A2B3C4D"
           (ExternalError "connection refused")); reflexivity.
Defined.




Import Reach.

Lemma within_radius_spec (N : numerics) (lat lng radius_km : float)
    (reports : list (gmap string value)) :
  forall kept,
    ReportQueries.within_radius N lat lng radius_km reports = inr kept ->
    sublist kept reports
    /\ forall report,
         In report kept <->
         In report reports /\ in_reach N lat lng radius_km report.
Proof.
  induction reports as [| r rest IH]; intros kept Hkept.
  - injection Hkept as <-. split; [constructor |]. intros report. cbn. tauto.
  - cbn [ReportQueries.within_radius] in Hkept. unfold getitem, ok, raise in Hkept.
    destruct (r !! "latitude") as [rlat |] eqn:Hlat; [| discriminate].
    destruct (r !! "longitude") as [rlng |] eqn:Hlng; [| discriminate].
    destruct (calculate_distance N lat lng rlat rlng) as [e | d] eqn:Hd;
      [discriminate |].
    destruct (ReportQueries.within_radius N lat lng radius_km rest)
      as [e | kept'] eqn:Hrest; [discriminate |].
    destruct (IH kept' eq_refl) as [Hsub Hiff].
    injection Hkept as <-.
    destruct (PrimFloat.leb d radius_km) eqn:Hle.
    + split; [constructor; exact Hsub |].
      intros report. cbn [In]. rewrite Hiff. split.
      * intros [<- | [Hin Hreach]]; [| tauto].
        split; [left; reflexivity |]. exists rlat, rlng, d. auto.
      * intros [[<- | Hin] Hreach]; [left; reflexivity | right; tauto].
    + split; [constructor; exact Hsub |].
      intros report. rewrite Hiff. cbn [In]. split; [tauto |].
      intros [[<- | Hin] Hreach]; [| tauto].
      destruct Hreach as (rlat' & rlng' & d' & H1 & H2 & H3 & H4).
      congruence.
Qed.

(** X17: when the nearby route answers 200, the centre is the [lat] and
    [lng] of the request read as numbers, the radius is the [radius] of the
    request or 10 when it is absent or not a number, and the reports of the
    answer are those reports of the table, in the order of the table, whose
    distance from the centre is at most the radius; the count is their
    number. *)
Theorem nearby_answers_reports_in_reach
    (w : world) (t : tables) (N : numerics) (args : gmap string string)
    (data : list (gmap string value)) (count : nat) (la ln : float) (rv : value) :
  fst (Routes.get_nearby_reports w t N args)
  = (200, Routes.JsonNearby data count la ln rv) ->
  Routes.arg_float (lib w) args "lat" = Some la
  /\ Routes.arg_float (lib w) args "lng" = Some ln
  /\ count = length data
  /\ exists rows radius,
       match Routes.arg_float (lib w) args "radius" with
       | Some r => radius = r /\ rv = VFloat r
       | None => radius = 10%float /\ rv = VInt 10
       end
       /\ reports_select t {| eqs := []; newest_first := false; limit := None |}
          = InsertData rows
       /\ sublist data rows
       /\ forall report,
            In report data <-> In report rows /\ in_reach N la ln radius report.
Proof.
  unfold Routes.get_nearby_reports, ReportQueries.get_reports_by_location.
  destruct (Routes.arg_float (lib w) args "lat") as [lat |]; [| discriminate].
  destruct (Routes.arg_float (lib w) args "lng") as [lng |]; [| discriminate].
  destruct (reports_select t _) as [e | rows] eqn:Hrows; [discriminate |].
  set (radius := match Routes.arg_float (lib w) args "radius" with
                 | Some r => (r, VFloat r)
                 | None => (10%float, VInt 10)
                 end).
  destruct (ReportQueries.within_radius N lat lng (fst radius) rows)
    as [e | kept] eqn:Hkept; [discriminate |].
  cbn [fst]. intros [= <- <- <- <- <-].
  destruct (within_radius_spec _ _ _ _ _ _ Hkept) as [Hsub Hiff].
  repeat split. exists rows, (fst radius). subst radius.
  destruct (Routes.arg_float (lib w) args "radius"); cbn [fst snd] in *; auto.
Qed.

Lemma nearby_answers_reports_in_reach_witness :
  fst (Routes.get_nearby_reports Shelf.world_reading_floats Shelf.two_reports
         Shelf.stand_in_numerics Shelf.args_center)
  = (200,
     Routes.JsonNearby [Shelf.report_flood] 1 12.9%float 77.6%float (VInt 10))
  /\ 1%nat = length [Shelf.report_flood].
Proof.
  assert (H : fst (Routes.get_nearby_reports Shelf.world_reading_floats
                     Shelf.two_reports Shelf.stand_in_numerics Shelf.args_center)
              = (200,
                 Routes.JsonNearby [Shelf.report_flood] 1 12.9%float 77.6%float
                   (VInt 10))) by (vm_compute; reflexivity).
  split; [exact H |].
  apply (nearby_answers_reports_in_reach _ _ _ _ _ _ _ _ _ H).
Defined.

(** ** The dashboard *)

Lemma count_eq_disjoint (key a b : string) (reports : list (gmap string value)) :
  a <> b ->
  forall n m,
    Routes.count_eq key a reports = inr n ->
    Routes.count_eq key b reports = inr m ->
    (n + m <= length reports)%nat.
Proof.
  intros Hab. induction reports as [| r rest IH]; intros n m Hn Hm.
  - injection Hn as <-. injection Hm as <-. reflexivity.
  - cbn [Routes.count_eq] in Hn, Hm. unfold getitem, ok, raise in Hn, Hm.
    destruct (r !! key) as [v |]; [| discriminate].
    destruct (Routes.count_eq key a rest) as [e | n']; [discriminate |].
    destruct (Routes.count_eq key b rest) as [e | m']; [discriminate |].
    specialize (IH n' m' eq_refl eq_refl).
    injection Hn as <-. injection Hm as <-. cbn [length].
    destruct v as [| | | | s | |]; cbn [eq_str]; try lia.
    destruct (String.eqb s a) eqn:Ha; destruct (String.eqb s b) eqn:Hb; try lia.
    apply String.eqb_eq in Ha, Hb. congruence.
Qed.

Lemma bump_total (N : numerics) (key : value) (counts : list (value * nat)) :
  Counters.total (Routes.bump N key counts) = S (Counters.total counts).
Proof.
  unfold Counters.total, list_sum.
  induction counts as [| [k n] rest IH]; [reflexivity |].
  cbn [Routes.bump]. destruct (Routes.key_eq N k key); cbn [map snd fold_right].
  - reflexivity.
  - rewrite IH. lia.
Qed.

Lemma bump_listed_keys (key : string) (counts : list (string * nat)) :
  map fst (Routes.bump_listed key counts) = map fst counts.
Proof.
  induction counts as [| [k n] rest IH]; [reflexivity |].
  cbn [Routes.bump_listed]. destruct (String.eqb k key); cbn [map fst];
    [reflexivity | rewrite IH; reflexivity].
Qed.

Lemma bump_listed_total (key : string) (counts : list (string * nat)) :
  (Counters.total (Routes.bump_listed key counts) <= S (Counters.total counts))%nat.
Proof.
  unfold Counters.total, list_sum.
  induction counts as [| [k n] rest IH]; [cbn; lia |].
  cbn [Routes.bump_listed]. destruct (String.eqb k key); cbn [map snd fold_right] in *; lia.
Qed.

Lemma bump_listed_level (key key' : string) (counts : list (string * nat)) :
  In key' (map fst counts) ->
  Counters.level key' (Routes.bump_listed key counts)
  = if String.eqb key key' then S (Counters.level key' counts)
    else Counters.level key' counts.
Proof.
  unfold Counters.level. induction counts as [| [k n] rest IH]; [intros [] |].
  intros Hin. cbn [Routes.bump_listed].
  destruct (String.eqb_spec k key) as [-> | Hk].
  - cbn [List.find fst snd].
    destruct (String.eqb_spec key key') as [-> | Hne]; reflexivity.
  - cbn [List.find fst snd].
    destruct (String.eqb_spec k key') as [-> | Hk'].
    + destruct (String.eqb_spec key key'); [congruence | reflexivity].
    + apply IH. destruct Hin as [Heq | Hin]; [cbn in Heq; congruence | exact Hin].
Qed.

Lemma tally_spec (N : numerics) (reports : list (gmap string value)) :
  forall types levels types' levels' critical,
    Routes.tally N reports types levels = inr (types', levels') ->
    Routes.count_eq "severity" "Critical" reports = inr critical ->
    In "Critical" (map fst levels) ->
    (Counters.total types' = Counters.total types + length reports)%nat
    /\ map fst levels' = map fst levels
    /\ (Counters.total levels' <= Counters.total levels + length reports)%nat
    /\ (Counters.level "Critical" levels'
        = Counters.level "Critical" levels + critical)%nat.
Proof.
  induction reports as [| r rest IH];
    intros types levels types' levels' critical Ht Hc Hin.
  - injection Ht as <- <-. injection Hc as <-. cbn [length]. repeat split; lia.
  - cbn [Routes.tally Routes.count_eq] in Ht, Hc.
    unfold getitem, ok, raise in Ht, Hc.
    destruct (r !! "disaster_type") as [dt |]; [| discriminate].
    destruct (negb (Routes.hashable dt)); [discriminate |].
    destruct (r !! "severity") as [sv |]; [| discriminate].
    destruct (negb (Routes.hashable sv)); [discriminate |].
    destruct (Routes.count_eq "severity" "Critical" rest) as [e | c'];
      [discriminate |].
    injection Hc as <-.
    set (levels1 := match sv with
                    | VStr s => Routes.bump_listed s levels
                    | _ => levels
                    end) in *.
    assert (Hkeys : map fst levels1 = map fst levels).
    { subst levels1. destruct sv; try reflexivity. apply bump_listed_keys. }
    assert (Htot : (Counters.total levels1 <= S (Counters.total levels))%nat).
    { subst levels1. destruct sv; try lia. apply bump_listed_total. }
    assert (Hlev : (Counters.level "Critical" levels1
                    = Counters.level "Critical" levels
                      + (if eq_str sv "Critical" then 1 else 0))%nat).
    { subst levels1. destruct sv as [| | | | s | |]; cbn [eq_str]; try lia.
      rewrite bump_listed_level by exact Hin. destruct (String.eqb s "Critical"); lia. }
    destruct (IH _ _ _ _ _ Ht eq_refl) as (H1 & H2 & H3 & H4);
      [rewrite Hkeys; exact Hin |].
    rewrite bump_total in H1. cbn [length].
    repeat split; try lia; try congruence.
    rewrite H4, Hlev. destruct (eq_str sv "Critical"); lia.
Qed.

Lemma count_eq_le (key text : string) (reports : list (gmap string value)) :
  forall n, Routes.count_eq key text reports = inr n -> (n <= length reports)%nat.
Proof.
  induction reports as [| r rest IH]; intros n Hn.
  - injection Hn as <-. reflexivity.
  - cbn [Routes.count_eq] in Hn. unfold getitem, ok, raise in Hn.
    destruct (r !! key) as [v |]; [| discriminate].
    destruct (Routes.count_eq key text rest) as [e | n']; [discriminate |].
    specialize (IH n' eq_refl). injection Hn as <-. cbn [length].
    destruct (eq_str v text); lia.
Qed.

(** X18: when the dashboard route answers 200, its figures describe the
    reports of one query (no filter, newest first, at most 50) and agree with
    each other: the total is the number of reports, the counts per disaster
    type add up to the total, the severity breakdown has the four levels in
    their order and its "Critical" entry equals the count of critical
    reports, its entries add up to at most the total, pending and resolved
    reports together are at most the total, and the recent reports are the
    first five. *)
Theorem dashboard_figures_agree
    (t : tables) (N : numerics) (s : Routes.stats) (calls : list db_call) :
  Routes.get_dashboard_stats t N = ((200, Routes.JsonStats s), calls) ->
  let q := {| eqs := []; newest_first := true; limit := Some 50 |} in
  calls = [DbSelect q]
  /\ (exists reports,
        reports_select t q = InsertData reports
        /\ Routes.total_reports s = length reports
        /\ Routes.recent_reports s = firstn 5 reports)
  /\ Counters.total (Routes.disaster_types s) = Routes.total_reports s
  /\ map fst (Routes.severity_breakdown s) = ["Low"; "Medium"; "High"; "Critical"]
  /\ Counters.level "Critical" (Routes.severity_breakdown s) = Routes.critical_reports s
  /\ (Counters.total (Routes.severity_breakdown s) <= Routes.total_reports s)%nat
  /\ (Routes.pending_reports s + Routes.resolved_reports s
      <= Routes.total_reports s)%nat.
Proof.
  unfold Routes.get_dashboard_stats, ReportQueries.get_all_reports,
    ReportQueries.all_rows.
  change (ReportQueries.filter_eqs ∅) with (@nil (string * value)).
  destruct (reports_select t _) as [e | reports] eqn:Hsel; [discriminate |].
  destruct (Routes.dashboard N reports) as [e | s'] eqn:Hdash; [discriminate |].
  destruct (Routes.sortable _); [| discriminate].
  intros [= <- <-]. cbv zeta. split; [reflexivity |].
  unfold Routes.dashboard, ok in Hdash.
  destruct (Routes.count_eq "status" "Pending" reports) as [e | pending] eqn:Hp;
    [discriminate |].
  destruct (Routes.count_eq "status" "Resolved" reports) as [e | resolved] eqn:Hr;
    [discriminate |].
  destruct (Routes.count_eq "severity" "Critical" reports) as [e | critical] eqn:Hc;
    [discriminate |].
  destruct (Routes.tally N reports _ _) as [e | [types levels]] eqn:Ht;
    [discriminate |].
  injection Hdash as <-. cbn [Routes.total_reports Routes.pending_reports
    Routes.resolved_reports Routes.critical_reports Routes.disaster_types
    Routes.severity_breakdown Routes.recent_reports fst snd].
  destruct (tally_spec _ _ _ _ _ _ _ Ht Hc) as (H1 & H2 & H3 & H4);
    [cbn; auto |].
  split; [exists reports; auto |].
  split; [exact H1 |]. split; [exact H2 |]. split; [exact H4 |].
  split; [exact H3 |].
  apply (count_eq_disjoint "status" "Pending" "Resolved"); [discriminate | |];
    assumption.
Qed.

Lemma dashboard_figures_agree_witness :
  exists s,
    Routes.get_dashboard_stats Shelf.two_reports Shelf.stand_in_numerics
    = ((200, Routes.JsonStats s),
       [DbSelect {| eqs := []; newest_first := true; limit := Some 50 |}])
    /\ Counters.total (Routes.disaster_types s) = Routes.total_reports s
    /\ Counters.level "Critical" (Routes.severity_breakdown s)
       = Routes.critical_reports s.
Proof.
  eexists.
  assert (H : Routes.get_dashboard_stats Shelf.two_reports Shelf.stand_in_numerics
              = ((200, Routes.JsonStats _),
                 [DbSelect {| eqs := []; newest_first := true; limit := Some 50 |}]))
    by (vm_compute; reflexivity).
  split; [exact H |].
  split; apply (dashboard_figures_agree _ _ _ _ H).
Defined.

(** * The dialog and the backend together *)

Lemma trigger_calls_app (first rest : list effect) :
  Trace.trigger_calls (first ++ rest)
  = (Trace.trigger_calls first + Trace.trigger_calls rest)%nat.
Proof.
  unfold Trace.trigger_calls. rewrite List.filter_app, length_app. reflexivity.
Qed.

(** X19: the success message tells the user that the emergency services
    were notified exactly when the backend called the alert trigger for the
    report: after "Submit Report", a reply "submitted" with the notified flag
    set goes with one call of [trigger_emergency_alert], and one with the
    flag unset goes with none. *)
Theorem notified_message_matches_alert
    (w : world) (u : user) (sessions : gmap Z session)
    (rid dtype sev : value) (notified : bool) :
  replies (handle w u (Text "Submit Report") sessions)
  = [Submitted rid dtype sev notified] ->
  Trace.trigger_calls (effects (handle w u (Text "Submit Report") sessions))
  = if notified then 1%nat else 0%nat.
Proof.
  cbn [handle]. unfold handle_message. cbn [String.eqb Ascii.eqb Bool.eqb].
  destruct (sessions !! tg_id u) as [sess |] eqn:Hs; [| discriminate].
  case_decide; [discriminate |].
  unfold submit_report, requests_post. rewrite Hs.
  destruct (post_raises w); [discriminate |].
  destruct (SupabaseClient.create_report w (report_data sess))
    as [[rid' stored | err] eff] eqn:Hcreate.
  - assert (Hfst : fst (SupabaseClient.create_report w (report_data sess))
                   = SupabaseClient.Success rid' stored) by (rewrite Hcreate; reflexivity).
    destruct (create_report_stored _ _ _ _ Hfst) as (row & Hrow & _ & _ & ->).
    destruct (db_data_inv _ _ _ _ Hrow) as (_ & _ & _ & _ & _ & Hsev & _).
    cbn [Z.eqb Pos.eqb replies effects]. intros [= _ _ _ <-].
    unfold get. rewrite Hsev. cbn [orb].
    destruct (alert_trace w stored) as [_ Htrig].
    destruct (eq_str (severity row) "Critical"); [| reflexivity].
    unfold Trace.trigger_calls in *. cbn. f_equal. exact Htrig.
  - assert (Hfst : fst (SupabaseClient.create_report w (report_data sess))
                   = SupabaseClient.Failure err) by (rewrite Hcreate; reflexivity).
    destruct (store_failure_not_201 _ _ _ Hfst) as [Hcode | Hcode];
      destruct (App.create_report w (report_data sess)) as [[code body] eff'];
      cbn [fst] in Hcode; subst code; discriminate.
Qed.

Lemma notified_message_matches_alert_witness :
  let sessions :=
    Scenario.at_step step_photos (Scenario.draft_located "Fire" "Critical") in
  Trace.trigger_calls
    (effects (handle Scenario.world_up Scenario.alice (Text "Submit Report") sessions))
  = 1%nat.
Proof.
  apply (notified_message_matches_alert Scenario.world_up Scenario.alice
           (Scenario.at_step step_photos (Scenario.draft_located "Fire" "Critical"))
           (VStr "1A2B3C4D") (VStr "Fire") (VStr "Critical") true).
  vm_compute. reflexivity.
Defined.

(** X20: the commands that only inform ([/start], [/help], [/status] and the
    two menu texts for help and for the user's reports) leave every session
    as it is and post nothing; the list of the user's reports that the bot
    shows holds at most five. *)
Theorem informing_updates_keep_sessions
    (w : world) (u : user) (upd : update) (sessions : gmap Z session) :
  In upd [CommandStart; CommandHelp; CommandStatus;
          Text "ℹ️ Help"; Text "📊 My Reports"] ->
  user_sessions (handle w u upd sessions) = sessions
  /\ Trace.posted (effects (handle w u upd sessions)) = []
  /\ forall reports,
       In (RecentReports reports) (replies (handle w u upd sessions)) ->
       (length reports <= 5)%nat.
Proof.
  intros Hin. cbn [In] in Hin.
  assert (Hshown : forall (l shown : list (gmap string value)),
             RecentReports (firstn 5 l) = RecentReports shown ->
             (length shown <= 5)%nat)
    by (intros l shown [= <-]; apply firstn_le_length).
  destruct Hin as [<- | [<- | [<- | [<- | [<- | []]]]]];
    cbn [handle]; unfold handle_message; cbn [String.eqb Ascii.eqb Bool.eqb];
    unfold start, help_command, show_user_reports, say;
    repeat case_match; cbn [user_sessions effects replies Trace.posted In];
    repeat split; try reflexivity;
    intros shown Hr; intuition (try discriminate);
    match goal with H : RecentReports _ = RecentReports _ |- _ =>
      exact (Hshown _ _ H) end.
Qed.

Lemma informing_updates_keep_sessions_witness :
  let sessions := Scenario.at_step step_photos Scenario.draft_complete in
  user_sessions (handle Scenario.world_up Scenario.alice CommandStatus sessions)
  = sessions.
Proof.
  apply (informing_updates_keep_sessions Scenario.world_up Scenario.alice
           CommandStatus
           (Scenario.at_step step_photos Scenario.draft_complete)).
  right. right. left. reflexivity.
Defined.
